(** * Title extraction pipeline of [main.py]: embedding and properties

    The development follows the layout of the script:
    - Python strings, the regular expressions and the date handling used by
      [form_title];
    - the collaborators of the visual path (PDF pages, layout model, image
      library, OCR model) as an explicit [World], and the filesystem and
      console as the state of a small state-and-exception monad (files and
      directories are kept by the location that a path designates);
    - [detect_title_and_crop], [title_recognition], [capture_title],
      [processPdf] and the batch loop, written in that monad;
    - the properties, one theorem per claim.

    Python [str] values are modelled as [string]: sequences of the code
    points U+0000..U+00FF, classified as CPython classifies them. *)

From Stdlib Require Import ZArith NArith QArith Ascii String List Lia Bool.
From stdpp Require Import base option gmap strings list fin_maps.
Import ListNotations.

#[local] Open Scope string_scope.
#[local] Open Scope list_scope.
#[local] Open Scope nat_scope.

(** ** Python results *)

Inductive py_exn : Type :=
| ValueError
| OverflowError
| IndexError
| FileNotFoundError
| ExternalError (origin : string).

Inductive py_result (A : Type) : Type :=
| Ok (a : A)
| Raise (e : py_exn).
Arguments Ok {A} a.
Arguments Raise {A} e.

(** ** Characters and strings *)

Module PyStr.

Definition chars (s : string) : list ascii := list_ascii_of_string s.
Definition of_chars (l : list ascii) : string := string_of_list_ascii l.

Definition code (c : ascii) : N := N_of_ascii c.

Definition between (lo hi : N) (c : ascii) : bool :=
  ((lo <=? code c) && (code c <=? hi))%N.

(** [\d] of a [str] pattern: the decimal digits (category Nd). *)
Definition is_digit (c : ascii) : bool := between 48 57 c.

(** [\w] of a [str] pattern: ['_'] and every alphanumeric code point
    ([str.isalnum]); in U+0080..U+00FF these are the letters and the
    numeric signs of Latin-1. *)
Definition is_word (c : ascii) : bool :=
  between 48 57 c || between 65 90 c || (code c =? 95)%N || between 97 122 c
  || (code c =? 170)%N || between 178 179 c || (code c =? 181)%N
  || between 185 186 c || between 188 190 c
  || between 192 214 c || between 216 246 c || between 248 255 c.

(** The characters removed by [str.strip()] ([str.isspace]). *)
Definition is_space (c : ascii) : bool :=
  between 9 13 c || between 28 32 c || (code c =? 133)%N || (code c =? 160)%N.

Definition is_underscore (c : ascii) : bool := (code c =? 95)%N.

Definition underscore : ascii := "_"%char.

(** [re.sub(p+, '_', s)] for a character class [p]: every maximal run of
    characters of the class becomes one underscore.  [in_run] tells that
    the previous character belonged to the run being replaced. *)
Fixpoint sub_runs (p : ascii -> bool) (in_run : bool) (s : list ascii)
  : list ascii :=
  match s with
  | [] => []
  | c :: r =>
      if p c
      then if in_run then sub_runs p true r
           else underscore :: sub_runs p true r
      else c :: sub_runs p false r
  end.

Fixpoint lstrip (p : ascii -> bool) (s : list ascii) : list ascii :=
  match s with
  | [] => []
  | c :: r => if p c then lstrip p r else s
  end.

Definition rstrip (p : ascii -> bool) (s : list ascii) : list ascii :=
  rev (lstrip p (rev s)).

Definition strip_chars (p : ascii -> bool) (s : list ascii) : list ascii :=
  rstrip p (lstrip p s).

Definition is_nonword (c : ascii) : bool := negb (is_word c).

(** [re.sub(r'[^\w]+', '_', s)] *)
Definition re_sub_nonword (s : string) : string :=
  of_chars (sub_runs is_nonword false (chars s)).

(** [re.sub(r'_+', '_', s)] *)
Definition re_sub_underscores (s : string) : string :=
  of_chars (sub_runs is_underscore false (chars s)).

(** [s.strip()] *)
Definition strip (s : string) : string :=
  of_chars (strip_chars is_space (chars s)).

(** [s.strip('_')] *)
Definition strip_underscores (s : string) : string :=
  of_chars (strip_chars is_underscore (chars s)).

(** [re.sub(r'[^\w.-]', '_', s)]: character by character, no runs. *)
Definition safe_char (c : ascii) : bool :=
  is_word c || (code c =? 46)%N || (code c =? 45)%N.

Definition re_sub_unsafe (s : string) : string :=
  of_chars (map (fun c => if safe_char c then c else underscore) (chars s)).

Fixpoint starts_with (pre s : list ascii) : bool :=
  match pre, s with
  | [], _ => true
  | a :: pre', b :: s' => (code a =? code b)%N && starts_with pre' s'
  | _ :: _, [] => false
  end.

(** [s.replace(old, '')] for a non-empty [old]: the occurrences of [old]
    are removed from left to right, without overlap.  [skip] counts the
    characters of the occurrence being removed that are still ahead. *)
Fixpoint remove_all (old : list ascii) (skip : nat) (s : list ascii)
  : list ascii :=
  match s with
  | [] => []
  | c :: r =>
      match skip with
      | S k => remove_all old k r
      | O =>
          if starts_with old s
          then remove_all old (length old - 1) r
          else c :: remove_all old 0 r
      end
  end.

Definition replace_with_empty (old s : string) : string :=
  of_chars (remove_all (chars old) 0 (chars s)).

(** ["_".join(parts)] *)
Fixpoint join (sep : string) (parts : list string) : string :=
  match parts with
  | [] => ""
  | [x] => x
  | x :: rest => (x ++ sep ++ join sep rest)%string
  end.

(** No underscore follows an underscore ([prev] tells that one precedes
    the list). *)
Fixpoint clean (prev : bool) (l : list ascii) : bool :=
  match l with
  | [] => true
  | c :: r => if is_underscore c then negb prev && clean true r
              else clean false r
  end.

(** Truthiness of a [str]. *)
Definition truthy (s : string) : bool :=
  match s with EmptyString => false | String _ _ => true end.

End PyStr.

(** ** Dates: [re.search(r'D:(\d{14})', s)], [strptime], [strftime] *)

Module PyDate.
Import PyStr.

Record datetime : Type := mk_datetime {
  year : N; month : N; day : N; hour : N; minute : N; second : N
}.

Definition all_digits (l : list ascii) : bool := forallb is_digit l.

(** The attempt of the pattern [D:(\d{14})] at the head of [s]; the value
    is group 1. *)
Definition match_packed_here (s : list ascii) : option (list ascii) :=
  match s with
  | d :: colon :: r =>
      if (code d =? 68)%N && (code colon =? 58)%N
         && (length (firstn 14 r) =? 14)%nat && all_digits (firstn 14 r)
      then Some (firstn 14 r) else None
  | _ => None
  end.

(** [re.search]: the leftmost position at which the pattern matches. *)
Fixpoint search_packed (s : list ascii) : option (list ascii) :=
  match match_packed_here s with
  | Some g => Some g
  | None => match s with
            | [] => None
            | _ :: r => search_packed r
            end
  end.

Definition re_search_packed (s : string) : option string :=
  of_chars <$> search_packed (chars s).

(** A run of fourteen decimal digits, as characters. *)
Definition packed (g : list ascii) : Prop :=
  length g = 14%nat /\ all_digits g = true.

Definition digit_value (c : ascii) : N := (code c - 48)%N.

Definition number (l : list ascii) : N :=
  fold_left (fun acc c => (10 * acc + digit_value c)%N) l 0%N.

Definition is_leap (y : N) : bool :=
  ((y mod 4 =? 0) && (negb (y mod 100 =? 0) || (y mod 400 =? 0)))%N.

Definition days_in_month (y m : N) : N :=
  if (m =? 2)%N then (if is_leap y then 29 else 28)%N
  else if (m =? 4)%N || (m =? 6)%N || (m =? 9)%N || (m =? 11)%N
       then 30%N else 31%N.

Definition valid (dt : datetime) : bool :=
  ((1 <=? year dt) && (year dt <=? 9999)
   && (1 <=? month dt) && (month dt <=? 12)
   && (1 <=? day dt) && (day dt <=? days_in_month (year dt) (month dt))
   && (hour dt <=? 23) && (minute dt <=? 59) && (second dt <=? 59))%N.

(** [datetime.strptime(g, "%Y%m%d%H%M%S")] on a run of fourteen decimal
    digits, the only strings [form_title] hands to it: each directive then
    takes its full width, and a field or a calendar date out of range is a
    [ValueError]. *)
Definition strptime (g : string) : py_result datetime :=
  let l := chars g in
  if (length l =? 14)%nat && all_digits l then
    let dt := {| year := number (firstn 4 l);
                 month := number (firstn 2 (skipn 4 l));
                 day := number (firstn 2 (skipn 6 l));
                 hour := number (firstn 2 (skipn 8 l));
                 minute := number (firstn 2 (skipn 10 l));
                 second := number (firstn 2 (skipn 12 l)) |} in
    if valid dt then Ok dt else Raise ValueError
  else Raise ValueError.

Definition digit_char (n : N) : ascii := ascii_of_N (48 + n mod 10).

Definition pad2 (n : N) : list ascii :=
  [digit_char (n / 10); digit_char n].

Definition pad4 (n : N) : list ascii :=
  [digit_char (n / 1000); digit_char (n / 100);
   digit_char (n / 10); digit_char n].

(** [%Y] as CPython 3.11 writes it through the C library (glibc): the year
    in decimal, without leading zeros (year 1 is [1], year 987 is [987],
    year 2024 is [2024]). *)
Definition year_digits (n : N) : list ascii :=
  if (n <? 10)%N then [digit_char n]
  else if (n <? 100)%N then pad2 n
  else if (n <? 1000)%N then digit_char (n / 100) :: pad2 n
  else pad4 n.

(** [dt.strftime("%Y-%m-%d_%H-%M-%S")] *)
Definition strftime (dt : datetime) : string :=
  of_chars (year_digits (year dt) ++ "-"%char :: pad2 (month dt)
            ++ "-"%char :: pad2 (day dt)
            ++ "_"%char :: pad2 (hour dt)
            ++ "-"%char :: pad2 (minute dt)
            ++ "-"%char :: pad2 (second dt)).

End PyDate.

(** ** [form_title] *)

Definition form_title (title author creation_date : string)
  : py_result string :=
  let date :=
    match PyDate.re_search_packed creation_date with
    | Some g =>
        match PyDate.strptime g with
        | Ok dt => Ok (PyDate.strftime dt)
        | Raise e => Raise e
        end
    | None => Ok (PyStr.re_sub_nonword (PyStr.strip creation_date))
    end in
  match date with
  | Raise e => Raise e
  | Ok creation_date =>
      let title := PyStr.re_sub_nonword (PyStr.strip title) in
      let author := PyStr.re_sub_nonword (PyStr.strip author) in
      let formatted :=
        (title ++ "[" ++ author ++ "_" ++ creation_date ++ "]")%string in
      Ok (PyStr.strip_underscores (PyStr.re_sub_underscores formatted))
  end.

(** ** Collaborators of the visual path *)

(** A Python [float]. *)
Inductive py_float : Type :=
| Finite (q : Q)
| Infinite
| NaN.

Definition truncate (q : Q) : Z := Z.quot (Qnum q) (Z.pos (Qden q)).

(** [int(x)]: truncation toward zero; [int] of a non-finite float raises. *)
Definition py_int (x : py_float) : py_result Z :=
  match x with
  | Finite q => Ok (truncate q)
  | Infinite => Raise OverflowError
  | NaN => Raise ValueError
  end.

(** A decoded picture: its extent and the identity of its content. *)
Record Image : Type := mk_image {
  width : Z;
  height : Z;
  content : N
}.

Definition Rect : Type := (Z * Z * Z * Z)%type.

(** A box of the layout model's answer. *)
Record Box : Type := mk_box {
  label : string;
  coordinate : list py_float;
  score : py_float
}.

Record LayoutResult : Type := mk_layout { boxes : list Box }.

Record OcrResult : Type := mk_ocr {
  rec_texts : list string;
  rec_scores : list py_float
}.

(** A page of an opened PDF: [extract_text()], [images], and the outcome of
    [to_image(resolution=200)]. *)
Record Page : Type := mk_page {
  extract_text : string;
  images : list Image;
  to_image : py_result Image
}.

Record Document : Type := mk_document {
  pages : list Page;
  metadata : gmap string string
}.

(** An entry of the input folder: [pdf_path.name] and what
    [pdfplumber.open(pdf_path)] gives. *)
Record PdfFile : Type := mk_pdf {
  name : string;
  pdf_open : py_result Document
}.

(** The models and the image library.  [layout_predict] stands for building
    [LayoutDetection] and calling [predict(path, batch_size=1,
    layout_nms=True)] on the picture stored at the path, [ocr_predict] for
    building [PaddleOCR] and calling [predict], [image_crop] for
    [Image.crop] followed by [save].  The models open the file themselves:
    [layout_no_file] and [ocr_no_file] are what their [predict] gives for a
    path at which nothing is stored. *)
Record World : Type := mk_world {
  layout_predict : Image -> py_result (list LayoutResult);
  layout_no_file : py_result (list LayoutResult);
  image_crop : Image -> Rect -> py_result Image;
  ocr_predict : Image -> py_result (list OcrResult);
  ocr_no_file : py_result (list OcrResult)
}.

(** ** Filesystem, console and the monad *)

Definition path : Type := list string.

Inductive Event : Type :=
(* console *)
| Printed_banner (pdf_name : string)
| Printed_result (result : string)
| Printed_ocr_required
| Printed_captured (pdf_name : string) (p : path)
| Printed_layout_empty (p : path)
| Printed_title_saved (safe_name : string) (p : path)
| Printed_no_title
| Printed_no_ocr_result
| Printed_rec_texts (texts : list string)
| Printed_rec_scores (scores : list py_float)
| Printed_full_title (full_title : string)
(* collaborators *)
| Called_to_image (resolution : Z)
| Called_layout_predict (p : path)
| Called_image_open (p : path)
| Called_crop (box : Rect)
| Called_ocr_predict (p : path).

(** The location a relative path designates, counted from the working
    directory ([[]]): empty components and ["."] stay where they are, [".."]
    steps back over the component before it (symbolic links are not
    modelled); a [".."] that leaves the working directory is kept. *)
Fixpoint resolve_onto (seen : list string) (p : path) : path :=
  match p with
  | [] => rev seen
  | c :: r =>
      if String.eqb c "" || String.eqb c "." then resolve_onto seen r
      else if String.eqb c ".." then
        match seen with
        | [] => resolve_onto [c] r
        | x :: seen' =>
            if String.eqb x ".." then resolve_onto (c :: seen) r
            else resolve_onto seen' r
        end
      else resolve_onto (c :: seen) r
  end.

Definition resolve (p : path) : path := resolve_onto [] p.

(** The files of the disk, kept by location: two spellings of one location
    ([output/../a.jpg] and [a.jpg]) reach the same file. *)
Record Filesystem : Type := mk_fs { stored : gmap path Image }.

#[global] Instance fs_lookup : Lookup path Image Filesystem :=
  fun p fs => stored fs !! resolve p.

#[global] Instance fs_insert : Insert path Image Filesystem :=
  fun p img fs => mk_fs (<[resolve p := img]> (stored fs)).

#[global] Instance fs_empty : Empty Filesystem := mk_fs ∅.

#[global] Instance fs_singleton : SingletonM path Image Filesystem :=
  fun p img => mk_fs {[ resolve p := img ]}.

(** [dirs]: the locations of the directories made so far, the working
    directory apart (it is always there). *)
Record State : Type := mk_state {
  dirs : gset path;
  files : Filesystem;
  log : list Event
}.

Definition M (A : Type) : Type := State -> py_result A * State.

#[global] Instance M_ret : MRet M := fun A a st => (Ok a, st).

#[global] Instance M_bind : MBind M := fun A B f m st =>
  match m st with
  | (Ok a, st') => f a st'
  | (Raise e, st') => (Raise e, st')
  end.

Definition raise {A} (e : py_exn) : M A := fun st => (Raise e, st).

Definition lift {A} (r : py_result A) : M A := fun st => (r, st).

Definition record (st : State) (e : Event) : State :=
  {| dirs := dirs st; files := files st; log := log st ++ [e] |}.

Definition emit (e : Event) : M unit := fun st => (Ok tt, record st e).

(** [Path(s)] for a relative [s]: the components between slashes, the empty
    ones and ["."] dropped, [".."] kept. *)
Fixpoint split_slash (cur : list ascii) (s : list ascii) : list (list ascii) :=
  match s with
  | [] => [rev cur]
  | c :: r =>
      if (PyStr.code c =? 47)%N then rev cur :: split_slash [] r
      else split_slash (c :: cur) r
  end.

Definition kept_component (s : string) : bool :=
  negb (String.eqb s "") && negb (String.eqb s ".").

Definition Path (s : string) : path :=
  filter (fun c => Is_true (kept_component c))
         (map PyStr.of_chars (split_slash [] (PyStr.chars s))).

(** [p.mkdir(parents=True, exist_ok=True)]: the directories on the way to
    [p], each at the location it designates; a step that leads back to the
    working directory makes nothing.  No regular file is taken to stand
    where a directory is wanted. *)
Fixpoint prefixes (pre : path) (p : path) : list path :=
  match p with
  | [] => []
  | c :: r =>
      match resolve (pre ++ [c]) with
      | [] => prefixes (pre ++ [c]) r
      | d :: ds => (d :: ds) :: prefixes (pre ++ [c]) r
      end
  end.

Definition mkdir_parents (p : path) : M unit := fun st =>
  (Ok tt, {| dirs := list_to_set (prefixes [] p) ∪ dirs st;
             files := files st; log := log st |}).

Definition save (p : path) (img : Image) : M unit := fun st =>
  (Ok tt, {| dirs := dirs st; files := <[p := img]> (files st);
             log := log st |}).

(** [Image.open(p)] *)
Definition read (p : path) : M Image := fun st =>
  match files st !! p with
  | Some img => (Ok img, st)
  | None => (Raise FileNotFoundError, st)
  end.

(** [model.predict(str(p))]: the model is handed the path and reads the
    picture stored there. *)
Definition predict_file {A : Type} (predict : Image -> py_result A)
    (no_file : py_result A) (p : path) : M A := fun st =>
  match files st !! p with
  | Some img => (predict img, st)
  | None => (no_file, st)
  end.

(** ** The pipeline *)

(** [x1, y1, x2, y2 = map(int, title_box)]: the conversions run in order
    while the unpacking asks for values, one more than four to see the end
    of the sequence. *)
Fixpoint ints (l : list py_float) : py_result (list Z) :=
  match l with
  | [] => Ok []
  | x :: r =>
      match py_int x with
      | Raise e => Raise e
      | Ok z => match ints r with
                | Raise e => Raise e
                | Ok zs => Ok (z :: zs)
                end
      end
  end.

Definition unpack4 (title_box : list py_float) : py_result Rect :=
  match ints (firstn 5 title_box) with
  | Raise e => Raise e
  | Ok [x1; y1; x2; y2] => Ok (x1, y1, x2, y2)
  | Ok _ => Raise ValueError
  end.

Section Pipeline.
Variable W : World.

(** The body run for the box labelled ['doc_title'], up to [break]; its
    value is [title_box]. *)
Definition crop_title_box (safe_name : string)
    (title_image_path first_page_capture_path : path)
    (box : Box) : M (option (list py_float)) :=
  let title_box := coordinate box in
  emit (Called_image_open first_page_capture_path);;
  image ← read first_page_capture_path;
  '(x1, y1, x2, y2) ← lift (unpack4 title_box);
  emit (Called_crop (x1, y1, x2, y2));;
  cropped ← lift (image_crop W image (x1, y1, x2, y2));
  save title_image_path cropped;;
  emit (Printed_title_saved safe_name title_image_path);;
  mret (Some title_box).

(** The [for box in response['boxes']] loop; its value is [title_box]
    when the loop ends. *)
Fixpoint title_box_loop (safe_name : string)
    (title_image_path first_page_capture_path : path)
    (response_boxes : list Box) : M (option (list py_float)) :=
  match response_boxes with
  | [] => mret None
  | box :: rest =>
      if String.eqb (label box) "doc_title" then
        crop_title_box safe_name title_image_path first_page_capture_path
                       box
      else
        title_box_loop safe_name title_image_path first_page_capture_path
                       rest
  end.

Definition detect_title_and_crop (safe_name : string)
    (image_dir first_page_capture_path : path) : M (option path) :=
  let title_image_path := image_dir ++ ["title.jpg"] in
  emit (Called_layout_predict first_page_capture_path);;
  output ← predict_file (layout_predict W) (layout_no_file W)
                        first_page_capture_path;
  match output with
  | [] =>
      emit (Printed_layout_empty first_page_capture_path);;
      mret None
  | response :: _ =>
      title_box ← title_box_loop safe_name title_image_path
                                 first_page_capture_path (boxes response);
      match title_box with
      | None | Some [] =>
          emit Printed_no_title;;
          mret None
      | Some (_ :: _) => mret (Some title_image_path)
      end
  end.

Definition title_recognition (title_image_path : path) : M unit :=
  emit (Called_ocr_predict title_image_path);;
  result ← predict_file (ocr_predict W) (ocr_no_file W) title_image_path;
  match result with
  | [] => emit Printed_no_ocr_result
  | res :: _ =>
      emit (Printed_rec_texts (rec_texts res));;
      emit (Printed_rec_scores (rec_scores res));;
      let full_title := PyStr.join "_" (rec_texts res) in
      emit (Printed_full_title full_title)
  end.

Definition capture_title (page : Page) (pdf_current_name : string)
  : M unit :=
  let safe_name :=
    PyStr.re_sub_unsafe (PyStr.replace_with_empty ".pdf" pdf_current_name) in
  let image_dir := Path ("./output/" ++ safe_name)%string in
  mkdir_parents image_dir;;
  let first_page_capture_path := image_dir ++ ["first_page.jpg"] in
  emit (Called_to_image 200);;
  first_page_image ← lift (to_image page);
  save first_page_capture_path first_page_image;;
  emit (Printed_captured pdf_current_name first_page_capture_path);;
  title_image_path ← detect_title_and_crop safe_name image_dir
                                           first_page_capture_path;
  match title_image_path with
  | Some p => title_recognition p
  | None => mret tt
  end.

Definition processPdf (pdf_path : PdfFile) : M string :=
  pdf ← lift (pdf_open pdf_path);
  if (length (pages pdf) =? 0)%nat then
    mret "No pages found in this PDF"
  else
    let metadata_title := default "" (metadata pdf !! "Title") in
    let metadata_author := default "" (metadata pdf !! "Author") in
    let metadata_creation_date :=
      default "" (metadata pdf !! "CreationDate") in
    if PyStr.truthy metadata_title then
      lift (form_title metadata_title metadata_author
                       metadata_creation_date)
    else
      match pages pdf with
      | [] => raise IndexError
      | first_page :: _ =>
          let has_text := PyStr.truthy (extract_text first_page) in
          let has_image := (0 <? length (images first_page))%nat in
          if negb has_text && negb has_image then
            mret "Page 1 is empty"
          else
            (if has_image then
               emit Printed_ocr_required;;
               capture_title first_page (name pdf_path)
             else mret tt);;
            mret "System unable to read the first page"
      end.

(** The final [for pdf_path in pdf_files_paths] loop. *)
Fixpoint batch (pdf_files_paths : list PdfFile) : M unit :=
  match pdf_files_paths with
  | [] => mret tt
  | pdf_path :: rest =>
      emit (Printed_banner (name pdf_path));;
      result ← processPdf pdf_path;
      emit (Printed_result result);;
      batch rest
  end.

End Pipeline.

(** ** Notions used to state the properties *)

(** The values printed by the batch loop, one per document. *)
Fixpoint outcomes (l : list Event) : list string :=
  match l with
  | [] => []
  | Printed_result r :: l' => r :: outcomes l'
  | _ :: l' => outcomes l'
  end.

(** The run of the batch loop over documents none of which raises, with the
    value printed for each. *)
Inductive processed (W : World)
  : State -> list PdfFile -> list string -> State -> Prop :=
| processed_nil (st : State) : processed W st [] [] st
| processed_cons (st st1 st2 : State) (f : PdfFile) (fs : list PdfFile)
    (r : string) (rs : list string) :
    processPdf W f (record st (Printed_banner (name f))) = (Ok r, st1) ->
    processed W (record st1 (Printed_result r)) fs rs st2 ->
    processed W st (f :: fs) (r :: rs) st2.

(** The rectangle [box] cut down to the extent of [img]. *)
Definition clamp_to_extent (img : Image) (box : Rect) : Rect :=
  let '(x1, y1, x2, y2) := box in
  (Z.max 0 (Z.min x1 (width img)), Z.max 0 (Z.min y1 (height img)),
   Z.max 0 (Z.min x2 (width img)), Z.max 0 (Z.min y2 (height img))).

(** An observation of the state that a computation leaves as it was. *)
Definition stable {X A : Type} (obs : State -> X) (m : M A) : Prop :=
  forall st, obs (m st).2 = obs st.

Definition is_result (e : Event) : bool :=
  match e with Printed_result _ => true | _ => false end.

Definition printed (st : State) : list string := outcomes (log st).

(** The value returned after the visual path. *)
Definition fallback : string := "System unable to read the first page".

(** A run of fourteen decimal digits. *)
Definition is_packed_run (g : string) : bool :=
  (String.length g =? 14)%nat && PyDate.all_digits (PyStr.chars g).

(** [creation_date] reads [pre ++ "D:" ++ g ++ post] with [g] a run of
    fourteen digits, and no such reading starts further left. *)
Definition first_packed_run (creation_date pre g post : string) : Prop :=
  creation_date = (pre ++ "D:" ++ g ++ post)%string
  /\ is_packed_run g = true
  /\ forall pre' g' post' : string,
       creation_date = (pre' ++ "D:" ++ g' ++ post')%string ->
       is_packed_run g' = true ->
       (String.length pre <= String.length pre')%nat.

(** The number that a string of decimal digits writes. *)
Fixpoint decimal_from (acc : N) (s : string) : N :=
  match s with
  | EmptyString => acc
  | String c r => decimal_from (10 * acc + (N_of_ascii c - 48))%N r
  end.

(** The field of [len] digits of the run [g] that starts at [start]. *)
Definition run_field (g : string) (start len : nat) : N :=
  decimal_from 0 (substring start len g).

Definition decimal_digit (n : N) : ascii := ascii_of_N (48 + n mod 10).

(** [n] on two decimal digits, and [n] (below 10000) in decimal without
    leading zeros. *)
Definition two_digits (n : N) : string :=
  String (decimal_digit (n / 10)) (String (decimal_digit n) "").

Definition decimal_text (n : N) : string :=
  if (n <? 10)%N then String (decimal_digit n) ""
  else if (n <? 100)%N then two_digits n
  else if (n <? 1000)%N then String (decimal_digit (n / 100)) (two_digits n)
  else String (decimal_digit (n / 1000))
         (String (decimal_digit (n / 100)) (two_digits n)).

Definition month_length (y m : N) : N :=
  if (m =? 2)%N then
    (if ((y mod 4 =? 0) && (negb (y mod 100 =? 0) || (y mod 400 =? 0)))%N
     then 29 else 28)%N
  else if ((m =? 4) || (m =? 6) || (m =? 9) || (m =? 11))%N then 30%N
  else 31%N.

(** The run [g] of fourteen digits reads [YYYYMMDDHHMMSS] as a moment of the
    calendar: year 1 to 9999, month 1 to 12, a day of that month, hour below
    24, minute and second below 60. *)
Definition is_timestamp (g : string) : bool :=
  ((1 <=? run_field g 0 4) && (run_field g 0 4 <=? 9999)
   && (1 <=? run_field g 4 2) && (run_field g 4 2 <=? 12)
   && (1 <=? run_field g 6 2)
   && (run_field g 6 2 <=? month_length (run_field g 0 4) (run_field g 4 2))
   && (run_field g 8 2 <=? 23) && (run_field g 10 2 <=? 59)
   && (run_field g 12 2 <=? 59))%N.

(** The moment that [g] reads, written [Y-MM-DD_HH-MM-SS] in ASCII digits. *)
Definition reformatted (g : string) : string :=
  (decimal_text (run_field g 0 4)
   ++ "-" ++ two_digits (run_field g 4 2)
   ++ "-" ++ two_digits (run_field g 6 2)
   ++ "_" ++ two_digits (run_field g 8 2)
   ++ "-" ++ two_digits (run_field g 10 2)
   ++ "-" ++ two_digits (run_field g 12 2))%string.

(** A name that [output/<name>] turns into a directory of its own: any name
    but the empty one, ["."] and [".."]. *)
Definition names_subdirectory (s : string) : bool :=
  kept_component s && negb (String.eqb s "..").

(** [form_title] applied again, on characters. *)
Module Retitle.
Import PyStr.

Definition tail_brackets : list ascii := ["["; "_"; "]"]%char.

(** [form_title] on the characters of a title, with empty author and date. *)
Definition retitle (l : list ascii) : list ascii :=
  strip_chars is_underscore
    (sub_runs is_underscore false
       (sub_runs is_nonword false (strip_chars is_space l) ++ tail_brackets)).

Definition settled (y : list ascii) : Prop :=
  Forall (fun c => is_word c = true) y
  /\ clean false y = true
  /\ lstrip is_underscore y = y
  /\ (y = [] \/ exists y', y = y' ++ [underscore]).
End Retitle.

(** ** Notions used by the further properties *)

(** The characters a title built by [form_title] can hold. *)
Definition allowed_in_title (c : ascii) : bool :=
  PyStr.is_word c || (PyStr.code c =? 91)%N || (PyStr.code c =? 93)%N
  || (PyStr.code c =? 45)%N.

(** ** [loop_dir] *)

(** An entry of the input folder, as [folder.glob] meets it: the file it
    stands for and the answer of [is_file()]. *)
Record DirEntry : Type := mk_entry {
  entry_file : PdfFile;
  entry_is_file : bool
}.

(** The line [loop_dir] can print. *)
Inductive Notice : Type := No_pdf_found.

(** The pattern [*.pdf] on a name (POSIX: the case matters). *)
Definition matches_pdf (s : string) : bool :=
  PyStr.starts_with (rev (PyStr.chars ".pdf")) (rev (PyStr.chars s)).

(** [loop_dir(folder)], on the entries of the folder in the order of the
    enumeration: what it prints and what it returns. *)
Definition loop_dir (folder : list DirEntry) : list Notice * list PdfFile :=
  let pdf_files :=
    map entry_file
        (List.filter
           (fun f => matches_pdf (name (entry_file f)) && entry_is_file f)
           folder) in
  match pdf_files with
  | [] => ([No_pdf_found], pdf_files)
  | _ :: _ => ([], pdf_files)
  end.

(** The title images handed to the OCR model, in the order of the calls. *)
Fixpoint ocr_calls (l : list Event) : list path :=
  match l with
  | [] => []
  | Called_ocr_predict p :: l' => p :: ocr_calls l'
  | _ :: l' => ocr_calls l'
  end.

(** What a step of the pipeline adds to the log: no call of the OCR
    model, and, when the step hands on a saved title image, the line that
    reports it as the last one. *)
Definition quiet_step (st st' : State) (saved : option Event) : Prop :=
  exists evs,
    log st' = log st ++ evs
    /\ ocr_calls evs = []
    /\ forall e, saved = Some e -> exists evs0, evs = evs0 ++ [e].

(** ** Sample inputs *)

Module Sample.

Definition page_image : Image := mk_image 100 100 1.
Definition title_image : Image := mk_image 10 8 2.

Definition text_box : Box :=
  mk_box "text" [Finite 0; Finite 30; Finite 90; Finite 60] (Finite 0.97).

(** Two title boxes: confidence 0.4 with area 50, confidence 0.91 with
    area 80. *)
Definition low_box : Box :=
  mk_box "doc_title" [Finite 10; Finite 10; Finite 20; Finite 15]
         (Finite 0.4).
Definition high_box : Box :=
  mk_box "doc_title" [Finite 10; Finite 10; Finite 20; Finite 18]
         (Finite 0.91).

(** A title box that leaves the 100 x 100 page on the right and below. *)
Definition wide_box : Box :=
  mk_box "doc_title" [Finite 50; Finite 50; Finite 150; Finite 150]
         (Finite 0.9).

Definition world (response_boxes : list Box) : World :=
  mk_world
    (fun _ => Ok [mk_layout response_boxes])
    (Raise (ExternalError "LayoutDetection.predict"))
    (fun _ _ => Ok title_image)
    (fun _ => Ok [mk_ocr ["Deep"; "Learning"] [Finite 0.9; Finite 0.8]])
    (Raise (ExternalError "PaddleOCR.predict")).

Definition start : State := mk_state ∅ ∅ [].

Definition first_page_path : path := ["output"; "scan"; "first_page.jpg"].
Definition title_path : path := ["output"; "scan"; "title.jpg"].

(** The state in which the first page has been captured. *)
Definition captured : State :=
  mk_state ∅ {[ first_page_path := page_image ]} [].

Definition scanned_page : Page := mk_page "" [page_image] (Ok page_image).
Definition broken_page : Page :=
  mk_page "" [page_image] (Raise (ExternalError "to_image")).
Definition text_page : Page := mk_page "Chapter 1" [] (Ok page_image).

Definition scanned : PdfFile :=
  mk_pdf "scan.pdf" (Ok (mk_document [scanned_page] ∅)).
Definition broken : PdfFile :=
  mk_pdf "broken.pdf" (Ok (mk_document [broken_page] ∅)).
Definition text_only : PdfFile :=
  mk_pdf "text.pdf" (Ok (mk_document [text_page] ∅)).
Definition titled : PdfFile :=
  mk_pdf "titled.pdf"
         (Ok (mk_document [text_page] {[ "Title" := "Deep Learning" ]})).
Definition no_pages : PdfFile :=
  mk_pdf "empty.pdf" (Ok (mk_document [] {[ "Title" := "Ghost" ]})).

(** A scanned document whose file name is three dots and [pdf]: its name
    for the output directory is [".."]. *)
Definition dots : PdfFile :=
  mk_pdf "...pdf" (Ok (mk_document [scanned_page] ∅)).

Definition notes : PdfFile :=
  mk_pdf "notes.txt" (Ok (mk_document [text_page] ∅)).

(** An input folder: two PDF files, a text file, and a directory whose
    name ends with [.pdf]. *)
Definition folder : list DirEntry :=
  [mk_entry scanned true; mk_entry notes true; mk_entry broken false;
   mk_entry titled true].

End Sample.

(** * Facts *)

Example form_title_packed :
  form_title "Deep Learning" "Ian Goodfellow" "D:20230901000000Z"
  = Ok "Deep_Learning[Ian_Goodfellow_2023-09-01_00-00-00]".
Proof. reflexivity. Qed.

Example form_title_plain :
  form_title " My  Title " "A. B." "2016" = Ok "My_Title[A_B_2016]".
Proof. reflexivity. Qed.

Example form_title_twice :
  form_title "a" "" "" = Ok "a[_]" /\ form_title "a[_]" "" "" = Ok "a_[_]".
Proof. split; reflexivity. Qed.

Module PyStrFacts.
Import PyStr.

Lemma chars_of_chars (l : list ascii) : chars (of_chars l) = l.
Proof. apply list_ascii_of_string_of_list_ascii. Qed.

Lemma of_chars_chars (s : string) : of_chars (chars s) = s.
Proof. apply string_of_list_ascii_of_string. Qed.

Lemma chars_app (a b : string) : chars (a ++ b)%string = chars a ++ chars b.
Proof. induction a as [|c a IH]; simpl; [reflexivity | now rewrite <- IH]. Qed.

Lemma length_chars (s : string) : length (chars s) = String.length s.
Proof. induction s as [|c s IH]; simpl; [reflexivity | now rewrite <- IH]. Qed.

Lemma code_inj (a b : ascii) : code a = code b -> a = b.
Proof.
  unfold code. intros H.
  rewrite <- (ascii_N_embedding a), <- (ascii_N_embedding b). now rewrite H.
Qed.

Lemma is_underscore_eq (c : ascii) : is_underscore c = true -> c = underscore.
Proof. unfold is_underscore. intros H. apply N.eqb_eq in H. now apply code_inj. Qed.

Lemma word_not_space (c : ascii) : is_word c = true -> is_space c = false.
Proof.
  destruct c as [b0 b1 b2 b3 b4 b5 b6 b7].
  destruct b0, b1, b2, b3, b4, b5, b6, b7; vm_compute; congruence.
Qed.

Section Runs.
Variable p : ascii -> bool.

Lemma sub_runs_app_stop (l r : list ascii) (c : ascii) (b : bool) :
  p c = false ->
  sub_runs p b (l ++ c :: r) = sub_runs p b l ++ c :: sub_runs p false r.
Proof.
  intros Hc. revert b. induction l as [|x l IH]; intros b; simpl.
  - now rewrite Hc.
  - destruct (p x); [destruct b|]; simpl; now rewrite IH.
Qed.

Lemma sub_runs_app_run (l r : list ascii) (c : ascii) (b : bool) :
  p c = true ->
  sub_runs p b ((l ++ [c]) ++ r) = sub_runs p b (l ++ [c]) ++ sub_runs p true r.
Proof.
  intros Hc. revert b. induction l as [|x l IH]; intros b; simpl.
  - rewrite Hc. now destruct b.
  - destruct (p x); [destruct b|]; simpl; now rewrite IH.
Qed.

Lemma sub_runs_keep (l r : list ascii) :
  Forall (fun c => p c = false) l ->
  sub_runs p false (l ++ r) = l ++ sub_runs p false r.
Proof.
  induction 1 as [|x l Hx _ IH]; simpl; [reflexivity|].
  now rewrite Hx, IH.
Qed.

Lemma sub_runs_Forall (Q : ascii -> Prop) (l : list ascii) (b : bool) :
  Q underscore -> Forall Q l -> Forall Q (sub_runs p b l).
Proof.
  intros Hu H. revert b. induction H as [|x l Hx _ IH]; intros b; simpl.
  - constructor.
  - destruct (p x); [destruct b|]; auto.
Qed.

Lemma sub_runs_outside (l : list ascii) (b : bool) :
  Forall (fun c => p c = false \/ c = underscore) (sub_runs p b l).
Proof.
  revert b. induction l as [|x l IH]; intros b; simpl.
  - constructor.
  - destruct (p x) eqn:Hx; [destruct b|]; auto.
Qed.

Lemma sub_runs_ends_run (l : list ascii) (c : ascii) :
  p c = true -> exists v, sub_runs p false (l ++ [c]) = v ++ [underscore].
Proof.
  revert c. induction l as [|x l IH] using rev_ind; intros c Hc.
  - exists []. simpl. now rewrite Hc.
  - destruct (p x) eqn:Hx.
    + rewrite sub_runs_app_run by assumption.
      destruct (IH x Hx) as [v ->]. exists v. simpl. rewrite Hc.
      now rewrite app_nil_r.
    + rewrite <- app_assoc. simpl. rewrite sub_runs_app_stop by assumption.
      exists (sub_runs p false l ++ [x]). simpl. rewrite Hc.
      now rewrite <- app_assoc.
Qed.

Lemma lstrip_app_stop (l r : list ascii) (c : ascii) :
  p c = false -> lstrip p (l ++ c :: r) = lstrip p l ++ c :: r.
Proof.
  intros Hc. induction l as [|x l IH]; simpl.
  - now rewrite Hc.
  - now destruct (p x).
Qed.

Lemma rstrip_app_stop (l : list ascii) (c : ascii) :
  p c = false -> rstrip p (l ++ [c]) = l ++ [c].
Proof.
  intros Hc. unfold rstrip. rewrite rev_app_distr. simpl. rewrite Hc.
  simpl. now rewrite rev_involutive.
Qed.

Lemma strip_chars_closed (l : list ascii) (c : ascii) :
  p c = false -> strip_chars p (l ++ [c]) = lstrip p l ++ [c].
Proof.
  intros Hc. unfold strip_chars. rewrite lstrip_app_stop by assumption.
  now apply rstrip_app_stop.
Qed.

Lemma lstrip_idem (l : list ascii) : lstrip p (lstrip p l) = lstrip p l.
Proof.
  induction l as [|x l IH]; simpl; [reflexivity|].
  destruct (p x) eqn:Hx; [assumption|]. simpl. now rewrite Hx.
Qed.

Lemma lstrip_Forall (Q : ascii -> Prop) (l : list ascii) :
  Forall Q l -> Forall Q (lstrip p l).
Proof.
  induction 1 as [|x l Hx H IH]; simpl; [constructor|].
  destruct (p x); auto.
Qed.

Lemma lstrip_last (l : list ascii) (c : ascii) :
  lstrip p (l ++ [c]) = [] \/ exists y, lstrip p (l ++ [c]) = y ++ [c].
Proof.
  induction l as [|x l IH]; simpl.
  - destruct (p c); [now left | right; now exists []].
  - destruct (p x); [assumption|]. right. now exists (x :: l).
Qed.

Lemma lstrip_fixed_head (x : ascii) (l : list ascii) :
  p x = false -> lstrip p (x :: l) = x :: l.
Proof. intros Hx. simpl. now rewrite Hx. Qed.
End Runs.

Lemma clean_sub_runs (l : list ascii) (b : bool) :
  clean b (sub_runs is_underscore b l) = true.
Proof.
  revert b. induction l as [|x l IH]; intros b; simpl; [reflexivity|].
  destruct (is_underscore x) eqn:Hx.
  - destruct b; simpl; apply IH.
  - simpl. rewrite Hx. apply IH.
Qed.

Lemma clean_fixed (l : list ascii) (b : bool) :
  clean b l = true -> sub_runs is_underscore b l = l.
Proof.
  revert b. induction l as [|x l IH]; intros b; simpl; [reflexivity|].
  destruct (is_underscore x) eqn:Hx.
  - intros H. apply andb_prop in H as [Hb H]. destruct b; [discriminate|].
    rewrite (IH _ H). now rewrite (is_underscore_eq _ Hx).
  - intros H. now rewrite (IH _ H).
Qed.

Lemma clean_weaken (l : list ascii) (b : bool) :
  clean b l = true -> clean false l = true.
Proof.
  destruct l as [|x l]; simpl; [reflexivity|].
  destruct (is_underscore x); [|tauto].
  intros H. apply andb_prop in H as [_ H]. now rewrite H.
Qed.

Lemma clean_lstrip (p : ascii -> bool) (l : list ascii) (b : bool) :
  clean b l = true -> clean false (lstrip p l) = true.
Proof.
  revert b. induction l as [|x l IH]; intros b H; simpl; [reflexivity|].
  destruct (p x).
  - simpl in H. destruct (is_underscore x).
    + apply andb_prop in H as [_ H]. now apply IH in H.
    + now apply IH in H.
  - now apply clean_weaken in H.
Qed.
End PyStrFacts.

Module RetitleFacts.
Import PyStr PyStrFacts Retitle.

Lemma form_title_retitle (t : string) :
  form_title t "" "" = Ok (of_chars (retitle (chars t))).
Proof.
  unfold form_title.
  change (PyDate.re_search_packed "") with (@None string).
  change (re_sub_nonword (strip "")) with "". cbv iota beta.
  unfold strip_underscores, re_sub_underscores, re_sub_nonword, strip.
  rewrite !chars_app, !chars_of_chars. reflexivity.
Qed.

Lemma normalise_closed (x : list ascii) :
  strip_chars is_underscore (sub_runs is_underscore false (x ++ ["]"%char]))
  = lstrip is_underscore (sub_runs is_underscore false x) ++ ["]"%char].
Proof.
  rewrite sub_runs_app_stop by reflexivity. simpl.
  now apply strip_chars_closed.
Qed.

Lemma form_title_closed (t a d o : string) :
  form_title t a d = Ok o -> exists m, chars o = m ++ ["]"%char].
Proof.
  unfold form_title.
  destruct (match PyDate.re_search_packed d with
            | Some g => _ | None => _ end) as [cd|e]; [|discriminate].
  intros [= <-]. unfold strip_underscores, re_sub_underscores.
  rewrite !chars_of_chars, !chars_app.
  change (chars "]") with ["]"%char].
  rewrite !app_assoc. rewrite normalise_closed. eauto.
Qed.

Lemma retitle_tail (x : list ascii) :
  strip_chars is_underscore
    (sub_runs is_underscore false (x ++ tail_brackets))
  = lstrip is_underscore (sub_runs is_underscore false x ++ ["["; "_"]%char)
    ++ ["]"%char].
Proof.
  unfold tail_brackets.
  change (x ++ ["["; "_"; "]"]%char) with (x ++ "["%char :: ["_"; "]"]%char).
  rewrite sub_runs_app_stop by reflexivity. simpl sub_runs at 2.
  change ["["%char; underscore; "]"%char]
    with (["["; "_"]%char ++ ["]"%char]).
  rewrite app_assoc. now apply strip_chars_closed.
Qed.

Lemma retitle_closed (m : list ascii) :
  exists y, retitle (m ++ ["]"%char]) = y ++ tail_brackets /\ settled y.
Proof.
  unfold retitle. rewrite strip_chars_closed by reflexivity.
  destruct (sub_runs_ends_run is_nonword (lstrip is_space m) "]"%char eq_refl)
    as [v Hv].
  assert (Hword : Forall (fun c => is_word c = true) (v ++ [underscore])).
  { rewrite <- Hv. eapply List.Forall_impl; [|apply sub_runs_outside].
    intros c [Hc| ->]; [|reflexivity].
    unfold is_nonword in Hc. now apply negb_false_iff in Hc. }
  rewrite Hv, retitle_tail.
  rewrite (lstrip_app_stop is_underscore _ ["_"%char] "["%char eq_refl).
  exists (lstrip is_underscore (sub_runs is_underscore false (v ++ [underscore]))).
  split; [now rewrite <- app_assoc|].
  repeat split.
  - apply lstrip_Forall, sub_runs_Forall; [reflexivity | assumption].
  - eapply clean_lstrip, clean_sub_runs.
  - apply lstrip_idem.
  - destruct (sub_runs_ends_run is_underscore v underscore eq_refl) as [v' ->].
    apply lstrip_last.
Qed.

Lemma retitle_settled (y : list ascii) :
  settled y -> retitle (y ++ tail_brackets) = y ++ tail_brackets.
Proof.
  intros (Hword & Hclean & Hhead & Hlast). unfold retitle.
  assert (Hsp : strip_chars is_space (y ++ tail_brackets) = y ++ tail_brackets).
  { unfold tail_brackets.
    change (y ++ ["["; "_"; "]"]%char) with (y ++ ["["; "_"]%char ++ ["]"%char]).
    rewrite app_assoc, strip_chars_closed by reflexivity. f_equal.
    destruct Hword as [|c y Hc _]; [reflexivity|].
    simpl. now rewrite (word_not_space _ Hc). }
  rewrite Hsp, (sub_runs_keep is_nonword y tail_brackets).
  2:{ eapply List.Forall_impl; [|exact Hword].
      intros c Hc. unfold is_nonword. now rewrite Hc. }
  change (sub_runs is_nonword false tail_brackets) with ["_"; "_"; "_"]%char.
  rewrite retitle_tail.
  assert (Hc : sub_runs is_underscore false (y ++ ["_"; "_"; "_"]%char)
               = if decide (y = []) then [underscore] else y).
  { destruct Hlast as [-> | [y' ->]]; [reflexivity|].
    rewrite sub_runs_app_run by reflexivity. simpl. rewrite app_nil_r.
    rewrite (clean_fixed _ _ Hclean).
    destruct (decide (y' ++ [underscore] = [])) as [E|_]; [|reflexivity].
    now destruct y'. }
  rewrite Hc. destruct (decide (y = [])) as [-> | Hne]; [reflexivity|].
  rewrite lstrip_app_stop by reflexivity. rewrite Hhead.
  unfold tail_brackets. now rewrite <- app_assoc.
Qed.
End RetitleFacts.

Module PyDateFacts.
Import PyStr PyStrFacts PyDate.

Lemma match_packed_here_sound (s g : list ascii) :
  match_packed_here s = Some g ->
  exists rest, s = "D"%char :: ":"%char :: g ++ rest /\ packed g.
Proof.
  destruct s as [|d [|colon r]]; simpl; try discriminate.
  destruct (_ && _) eqn:E; [|discriminate]. intros [= <-].
  repeat (apply andb_prop in E as [E ?]).
  exists (skipn 14 r). split.
  - rewrite (code_inj d "D"%char), (code_inj colon ":"%char)
      by now apply N.eqb_eq.
    now rewrite firstn_skipn.
  - split; [now apply Nat.eqb_eq | assumption].
Qed.

Lemma match_packed_here_complete (g rest : list ascii) :
  packed g -> match_packed_here ("D"%char :: ":"%char :: g ++ rest) = Some g.
Proof.
  intros [Hlen Hdig]. simpl.
  assert (E : firstn 14 (g ++ rest) = g).
  { rewrite <- Hlen. rewrite firstn_app, Nat.sub_diag, firstn_all. simpl.
    apply app_nil_r. }
  rewrite E, Hlen, Hdig. reflexivity.
Qed.

Lemma search_packed_first (pre g post : list ascii) :
  packed g ->
  (forall pre' g' post',
      pre ++ "D"%char :: ":"%char :: g ++ post
      = pre' ++ "D"%char :: ":"%char :: g' ++ post' ->
      packed g' -> length pre <= length pre') ->
  search_packed (pre ++ "D"%char :: ":"%char :: g ++ post) = Some g.
Proof.
  intros Hg. induction pre as [|c pre IH]; intros Hfirst.
  - simpl app. unfold search_packed.
    destruct g; rewrite match_packed_here_complete; auto.
  - assert (Hnone : match_packed_here
              ((c :: pre) ++ "D"%char :: ":"%char :: g ++ post) = None).
    { destruct (match_packed_here _) as [g'|] eqn:E; [|reflexivity].
      apply match_packed_here_sound in E as (rest & E & Hg').
      specialize (Hfirst [] g' rest E Hg'). simpl in Hfirst. lia. }
    change (search_packed ((c :: pre) ++ ?l))
      with (match match_packed_here ((c :: pre) ++ l) with
            | Some g0 => Some g0
            | None => search_packed (pre ++ l)
            end).
    rewrite Hnone. apply IH.
    intros pre' g' post' E Hg'.
    specialize (Hfirst (c :: pre') g' post'). simpl in Hfirst.
    rewrite E in Hfirst. specialize (Hfirst eq_refl Hg'). lia.
Qed.

Lemma is_packed_run_packed (g : string) :
  is_packed_run g = true -> packed (chars g).
Proof.
  unfold is_packed_run. intros H. apply andb_prop in H as [Hl Hd].
  split; [|assumption]. rewrite length_chars. now apply Nat.eqb_eq.
Qed.

Lemma packed_is_packed_run (g : string) :
  packed (chars g) -> is_packed_run g = true.
Proof.
  intros [Hl Hd]. unfold is_packed_run. rewrite Hd, <- length_chars, Hl.
  reflexivity.
Qed.

Lemma re_search_packed_first (d pre g post : string) :
  first_packed_run d pre g post -> re_search_packed d = Some g.
Proof.
  intros (-> & Hg & Hfirst). unfold re_search_packed.
  rewrite !chars_app. change (chars "D:") with ["D"; ":"]%char. simpl app.
  rewrite search_packed_first.
  - simpl. now rewrite of_chars_chars.
  - now apply is_packed_run_packed.
  - intros pre' g' post' E Hg'.
    specialize (Hfirst (of_chars pre') (of_chars g') (of_chars post')).
    rewrite <- !length_chars, !chars_of_chars in Hfirst. apply Hfirst.
    + rewrite <- (of_chars_chars (_ ++ _)%string). rewrite !chars_app.
      change (chars "D:") with ["D"; ":"]%char. simpl app. rewrite E.
      rewrite <- (chars_of_chars pre') at 1.
      rewrite <- (chars_of_chars g') at 1.
      rewrite <- (chars_of_chars post') at 1.
      change (["D"; ":"]%char) with (chars "D:").
      change ("D"%char :: ":"%char :: chars (of_chars g') ++ chars (of_chars post'))
        with (chars "D:" ++ chars (of_chars g') ++ chars (of_chars post')).
      rewrite <- !chars_app. apply of_chars_chars.
    + apply packed_is_packed_run. now rewrite chars_of_chars.
Qed.


Lemma search_packed_step (c : ascii) (s : list ascii) :
  search_packed (c :: s)
  = match match_packed_here (c :: s) with
    | Some g => Some g
    | None => search_packed s
    end.
Proof. reflexivity. Qed.

Lemma search_packed_occurs (pre g post : list ascii) :
  packed g ->
  exists g0, search_packed (pre ++ "D"%char :: ":"%char :: g ++ post) = Some g0.
Proof.
  intros Hg. induction pre as [|c pre IH].
  - exists g. simpl app. rewrite search_packed_step.
    now rewrite match_packed_here_complete.
  - simpl app. rewrite search_packed_step.
    destruct (match_packed_here _) as [g1|]; eauto.
Qed.

Lemma search_packed_inv (s g : list ascii) :
  search_packed s = Some g ->
  exists pre post,
    s = pre ++ "D"%char :: ":"%char :: g ++ post /\ packed g
    /\ forall pre' g' post',
         s = pre' ++ "D"%char :: ":"%char :: g' ++ post' ->
         packed g' -> length pre <= length pre'.
Proof.
  induction s as [|c s IH].
  - discriminate.
  - rewrite search_packed_step.
    destruct (match_packed_here (c :: s)) as [g1|] eqn:E.
    + intros [= ->]. apply match_packed_here_sound in E as (rest & E & Hg).
      exists [], rest. split; [assumption|]. split; [assumption|].
      intros; simpl; lia.
    + intros H. apply IH in H as (pre & post & -> & Hg & Hfirst).
      exists (c :: pre), post. split; [reflexivity|]. split; [assumption|].
      intros [|c' pre'] g' post' E' Hg'.
      * simpl in E'. rewrite E', match_packed_here_complete in E by assumption.
        discriminate.
      * simpl in E'. injection E' as _ E'.
        specialize (Hfirst pre' g' post' E' Hg'). simpl. lia.
Qed.

Lemma chars_reading (pre g post : string) :
  chars (pre ++ "D:" ++ g ++ post)%string
  = chars pre ++ "D"%char :: ":"%char :: chars g ++ chars post.
Proof. now rewrite !chars_app. Qed.

Lemma reading_of_chars (pre g post : list ascii) :
  of_chars (pre ++ "D"%char :: ":"%char :: g ++ post)
  = (of_chars pre ++ "D:" ++ of_chars g ++ of_chars post)%string.
Proof.
  rewrite <- (of_chars_chars (_ ++ _)%string), chars_reading.
  now rewrite !chars_of_chars.
Qed.

Lemma re_search_packed_inv (d g : string) :
  re_search_packed d = Some g -> exists pre post, first_packed_run d pre g post.
Proof.
  unfold re_search_packed.
  destruct (search_packed (chars d)) as [g0|] eqn:E; [|discriminate].
  intros [= <-]. apply search_packed_inv in E as (pre & post & E & Hg & Hfirst).
  exists (of_chars pre), (of_chars post). split; [|split].
  - now rewrite <- reading_of_chars, <- E, of_chars_chars.
  - apply packed_is_packed_run. now rewrite chars_of_chars.
  - intros pre' g' post' E' Hg'.
    rewrite <- !length_chars, chars_of_chars.
    apply (Hfirst (chars pre') (chars g') (chars post')).
    + now rewrite E', chars_reading.
    + now apply is_packed_run_packed.
Qed.

Lemma re_search_packed_occurs (pre g post : string) :
  is_packed_run g = true ->
  exists g0, re_search_packed (pre ++ "D:" ++ g ++ post)%string = Some g0.
Proof.
  intros Hg. unfold re_search_packed. rewrite chars_reading.
  destruct (search_packed_occurs (chars pre) (chars g) (chars post))
    as [g0 ->]; [now apply is_packed_run_packed|].
  now exists (of_chars g0).
Qed.

Lemma strptime_raises (g : string) (e : py_exn) :
  strptime g = Raise e -> e = ValueError.
Proof.
  unfold strptime. destruct (_ && _); [destruct (valid _)|]; congruence.
Qed.

Lemma fourteen (l : list ascii) :
  length l = 14 ->
  exists c0 c1 c2 c3 c4 c5 c6 c7 c8 c9 c10 c11 c12 c13,
    l = [c0; c1; c2; c3; c4; c5; c6; c7; c8; c9; c10; c11; c12; c13].
Proof.
  intros H.
  do 14 (destruct l as [|? l]; [discriminate|]).
  destruct l; [|discriminate]. repeat eexists.
Qed.

(** [strftime] writes the year in decimal and the other fields on two
    digits. *)
Lemma strftime_text (dt : datetime) :
  strftime dt
  = (decimal_text (year dt) ++ "-" ++ two_digits (month dt) ++ "-"
     ++ two_digits (day dt) ++ "_" ++ two_digits (hour dt) ++ "-"
     ++ two_digits (minute dt) ++ "-" ++ two_digits (second dt))%string.
Proof.
  unfold strftime, year_digits, decimal_text.
  destruct (year dt <? 10)%N; [reflexivity|].
  destruct (year dt <? 100)%N; [reflexivity|].
  destruct (year dt <? 1000)%N; reflexivity.
Qed.

(** On a run of fourteen digits [strptime] reads the six fields, succeeds
    exactly on the moments of the calendar, and [strftime] writes the
    fields back. *)
Lemma strptime_packed (g : string) :
  is_packed_run g = true ->
  match strptime g with
  | Ok dt => is_timestamp g = true /\ strftime dt = reformatted g
  | Raise e => is_timestamp g = false /\ e = ValueError
  end.
Proof.
  unfold is_packed_run. intros H. apply andb_prop in H as [Hlen Hdig].
  apply Nat.eqb_eq in Hlen. rewrite <- length_chars in Hlen.
  destruct (fourteen _ Hlen)
    as (c0 & c1 & c2 & c3 & c4 & c5 & c6 & c7 & c8 & c9 & c10 & c11 & c12
        & c13 & Hg).
  unfold strptime. rewrite Hdig, Hg.
  change (length _ =? 14)%nat with true. cbn [andb firstn skipn].
  rewrite <- (of_chars_chars g), Hg.
  set (dt := {| year := number [c0; c1; c2; c3];
                month := number [c4; c5];
                day := number [c6; c7];
                hour := number [c8; c9];
                minute := number [c10; c11];
                second := number [c12; c13] |}).
  change (is_timestamp _) with (valid dt).
  change (reformatted _)
    with (decimal_text (year dt) ++ "-" ++ two_digits (month dt) ++ "-"
          ++ two_digits (day dt) ++ "_" ++ two_digits (hour dt) ++ "-"
          ++ two_digits (minute dt) ++ "-" ++ two_digits (second dt))%string.
  destruct (valid dt); [|now split].
  split; [reflexivity | apply strftime_text].
Qed.
End PyDateFacts.

Section Monad.
Context {A B : Type}.

Lemma bind_ok (m : M A) (k : A -> M B) (st st' : State) (a : A) :
  m st = (Ok a, st') -> (m ≫= k) st = k a st'.
Proof. intros H. unfold mbind, M_bind. now rewrite H. Qed.

Lemma bind_raise (m : M A) (k : A -> M B) (st st' : State) (e : py_exn) :
  m st = (Raise e, st') -> (m ≫= k) st = (Raise e, st').
Proof. intros H. unfold mbind, M_bind. now rewrite H. Qed.
End Monad.

Section Stable.
Context {X : Type} (obs : State -> X).

Lemma stable_ret {A} (a : A) : stable obs (mret a).
Proof. intros st. reflexivity. Qed.

Lemma stable_lift {A} (r : py_result A) : stable obs (lift r).
Proof. intros st. reflexivity. Qed.

Lemma stable_raise {A} (e : py_exn) : stable obs (@raise A e).
Proof. intros st. reflexivity. Qed.

Lemma stable_read (p : path) : stable obs (read p).
Proof. intros st. unfold read. now destruct (files st !! p). Qed.

Lemma stable_predict {A} (f : Image -> py_result A) (nf : py_result A)
    (p : path) : stable obs (predict_file f nf p).
Proof. intros st. unfold predict_file. now destruct (files st !! p). Qed.

Lemma stable_bind {A B} (m : M A) (k : A -> M B) :
  stable obs m -> (forall a, stable obs (k a)) -> stable obs (m ≫= k).
Proof.
  intros Hm Hk st. unfold mbind, M_bind. specialize (Hm st).
  destruct (m st) as [[a|e] st']; simpl in *.
  - now rewrite Hk.
  - assumption.
Qed.
End Stable.

Lemma outcomes_app (l1 l2 : list Event) :
  outcomes (l1 ++ l2) = outcomes l1 ++ outcomes l2.
Proof.
  induction l1 as [|e l1 IH]; simpl; [reflexivity|].
  destruct e; simpl; now rewrite ?IH.
Qed.

Lemma quiet_emit (e : Event) : is_result e = false -> stable printed (emit e).
Proof.
  intros He st. unfold printed. simpl. rewrite outcomes_app.
  destruct e; try discriminate; simpl; apply app_nil_r.
Qed.

Lemma quiet_save (p : path) (img : Image) : stable printed (save p img).
Proof. intros st. reflexivity. Qed.

Lemma quiet_mkdir (p : path) : stable printed (mkdir_parents p).
Proof. intros st. reflexivity. Qed.

Lemma dirs_emit (e : Event) : stable dirs (emit e).
Proof. intros st. reflexivity. Qed.

Lemma dirs_save (p : path) (img : Image) : stable dirs (save p img).
Proof. intros st. reflexivity. Qed.

Section PipelineFacts.
Variable W : World.

(** Observations that neither the console lines of the pipeline nor the
    saved pictures change. *)
Section Observed.
Context {X : Type} (obs : State -> X).
Hypothesis obs_emit : forall e, is_result e = false -> stable obs (emit e).
Hypothesis obs_save : forall p img, stable obs (save p img).

Ltac stable_steps :=
  repeat first
    [ apply stable_bind; [| intros ? ]
    | apply obs_emit; reflexivity
    | apply obs_save
    | apply stable_ret | apply stable_lift | apply stable_read
    | apply stable_predict
    | apply stable_raise
    | match goal with
      | |- stable _ (match ?x with _ => _ end) => destruct x
      end ].

Lemma crop_title_box_stable safe tp fp box :
  stable obs (crop_title_box W safe tp fp box).
Proof. unfold crop_title_box. stable_steps. Qed.

Lemma title_box_loop_stable safe tp fp bs :
  stable obs (title_box_loop W safe tp fp bs).
Proof.
  induction bs as [|b bs IH]; simpl.
  - apply stable_ret.
  - destruct (String.eqb _ _); [apply crop_title_box_stable | exact IH].
Qed.

Lemma detect_title_and_crop_stable safe dir fp :
  stable obs (detect_title_and_crop W safe dir fp).
Proof.
  unfold detect_title_and_crop.
  repeat first
    [ apply title_box_loop_stable
    | apply stable_bind; [| intros ? ]
    | apply obs_emit; reflexivity
    | apply stable_ret | apply stable_lift | apply stable_read
    | apply stable_predict
    | match goal with
      | |- stable _ (match ?x with _ => _ end) => destruct x
      end ].
Qed.

Lemma title_recognition_stable tp :
  stable obs (title_recognition W tp).
Proof. unfold title_recognition. stable_steps. Qed.

Hypothesis obs_mkdir : forall p, stable obs (mkdir_parents p).

Lemma capture_title_stable page pdf_name :
  stable obs (capture_title W page pdf_name).
Proof.
  unfold capture_title.
  repeat first
    [ apply detect_title_and_crop_stable
    | apply title_recognition_stable
    | apply obs_mkdir
    | apply stable_bind; [| intros ? ]
    | apply obs_emit; reflexivity
    | apply obs_save
    | apply stable_ret | apply stable_lift
    | match goal with
      | |- stable _ (match ?x with _ => _ end) => destruct x
      end ].
Qed.

Lemma processPdf_stable f : stable obs (processPdf W f).
Proof.
  unfold processPdf.
  apply stable_bind; [apply stable_lift | intros pdf].
  destruct (length (pages pdf) =? 0)%nat; [apply stable_ret|].
  destruct (PyStr.truthy _); [apply stable_lift|].
  destruct (pages pdf) as [|first_page rest]; [apply stable_raise|].
  destruct (negb _ && negb _); [apply stable_ret|].
  apply stable_bind; [|intros; apply stable_ret].
  destruct (0 <? _)%nat; [|apply stable_ret].
  apply stable_bind; [apply obs_emit; reflexivity|].
  intros; apply capture_title_stable.
Qed.
End Observed.

Lemma processPdf_quiet f st :
  outcomes (log (processPdf W f st).2) = outcomes (log st).
Proof.
  apply (processPdf_stable printed);
    auto using quiet_emit, quiet_save, quiet_mkdir.
Qed.

Lemma batch_step f fs st :
  batch W (f :: fs) st
  = match processPdf W f (record st (Printed_banner (name f))) with
    | (Ok r, st1) => batch W fs (record st1 (Printed_result r))
    | (Raise e, st1) => (Raise e, st1)
    end.
Proof.
  simpl. unfold mbind, M_bind, emit.
  now destruct (processPdf W f _) as [[r|e] st1].
Qed.

Lemma outcomes_record_banner st n :
  outcomes (log (record st (Printed_banner n))) = outcomes (log st).
Proof. simpl. rewrite outcomes_app. apply app_nil_r. Qed.

Lemma outcomes_record_result st r :
  outcomes (log (record st (Printed_result r))) = outcomes (log st) ++ [r].
Proof. simpl. now rewrite outcomes_app. Qed.

Lemma processed_run pre rs st st1 :
  processed W st pre rs st1 ->
  length rs = length pre
  /\ outcomes (log st1) = outcomes (log st) ++ rs
  /\ forall post, batch W (pre ++ post) st = batch W post st1.
Proof.
  induction 1 as [st | st st1 st2 f fs r rs Hf _ IH].
  - rewrite app_nil_r. auto.
  - destruct IH as (Hlen & Hout & Hrun). split; [simpl; lia|]. split.
    + rewrite Hout, outcomes_record_result.
      pose proof (processPdf_quiet f (record st (Printed_banner (name f)))) as Hq.
      rewrite Hf, outcomes_record_banner in Hq. simpl in Hq. rewrite Hq.
      now rewrite <- app_assoc.
    + intros post. simpl app. rewrite batch_step, Hf. apply Hrun.
Qed.
End PipelineFacts.

Section Steps.
Context {B : Type} (k : unit -> M B).

Lemma bind_emit (e : Event) (st : State) :
  (emit e ≫= k) st = k tt (record st e).
Proof. reflexivity. Qed.

Lemma bind_save (p : path) (img : Image) (st : State) :
  (save p img ≫= k) st
  = k tt {| dirs := dirs st; files := <[p := img]> (files st); log := log st |}.
Proof. reflexivity. Qed.

Lemma bind_mkdir (p : path) (st : State) :
  (mkdir_parents p ≫= k) st
  = k tt {| dirs := list_to_set (prefixes [] p) ∪ dirs st;
            files := files st; log := log st |}.
Proof. reflexivity. Qed.
End Steps.

Lemma bind_lift {A B} (r : py_result A) (k : A -> M B) (st : State) :
  (lift r ≫= k) st
  = match r with Ok a => k a st | Raise e => (Raise e, st) end.
Proof. unfold mbind, M_bind, lift. now destruct r. Qed.

Lemma bind_read {B} (p : path) (k : Image -> M B) (st : State) (img : Image) :
  files st !! p = Some img -> (read p ≫= k) st = k img st.
Proof. intros H. apply bind_ok. unfold read. now rewrite H. Qed.

Lemma bind_predict {A B} (f : Image -> py_result A) (nf : py_result A)
    (p : path) (k : A -> M B) (st : State) (img : Image) :
  files st !! p = Some img ->
  (predict_file f nf p ≫= k) st
  = match f img with Ok a => k a st | Raise e => (Raise e, st) end.
Proof.
  intros H. unfold mbind, M_bind, predict_file. rewrite H.
  now destruct (f img).
Qed.

Lemma bind_predict_any {A B} (f : Image -> py_result A) (nf : py_result A)
    (p : path) (k : A -> M B) (st : State) :
  (predict_file f nf p ≫= k) st
  = match match files st !! p with
          | Some img => f img
          | None => nf
          end with
    | Ok a => k a st
    | Raise e => (Raise e, st)
    end.
Proof.
  unfold mbind, M_bind, predict_file.
  destruct (files st !! p) as [img|]; [now destruct (f img) | now destruct nf].
Qed.

Lemma fs_lookup_insert (fs : Filesystem) (p : path) (img : Image) :
  <[p := img]> fs !! p = Some img.
Proof. apply (lookup_insert_eq (stored fs)). Qed.


Section Runs.
Variable W : World.
Variables (safe : string) (tp fp : path).

Lemma title_box_loop_skip (pre rest : list Box) (st : State) :
  Forall (fun x => label x <> "doc_title") pre ->
  title_box_loop W safe tp fp (pre ++ rest) st
  = title_box_loop W safe tp fp rest st.
Proof.
  induction 1 as [|x pre Hx _ IH]; [reflexivity|]. simpl.
  apply String.eqb_neq in Hx. now rewrite Hx.
Qed.

Lemma title_box_loop_hit (b : Box) (post : list Box) (st : State) :
  label b = "doc_title" ->
  title_box_loop W safe tp fp (b :: post) st
  = crop_title_box W safe tp fp b st.
Proof. intros Hb. simpl. now rewrite Hb. Qed.

Lemma crop_title_box_run (b : Box) (st : State) (img : Image) (rect : Rect) :
  files st !! fp = Some img ->
  unpack4 (coordinate b) = Ok rect ->
  crop_title_box W safe tp fp b st
  = match image_crop W img rect with
    | Ok cropped =>
        (Ok (Some (coordinate b)),
         {| dirs := dirs st; files := <[tp := cropped]> (files st);
            log := log st ++ [Called_image_open fp; Called_crop rect;
                              Printed_title_saved safe tp] |})
    | Raise e =>
        (Raise e,
         {| dirs := dirs st; files := files st;
            log := log st ++ [Called_image_open fp; Called_crop rect] |})
    end.
Proof.
  intros Hfile Hrect. unfold crop_title_box.
  rewrite bind_emit, (bind_read _ _ _ img) by assumption.
  rewrite bind_lift, Hrect. destruct rect as [[[x1 y1] x2] y2].
  rewrite bind_emit, bind_lift.
  destruct (image_crop W img (x1, y1, x2, y2)) as [cropped|e].
  - rewrite bind_save, bind_emit. unfold record. simpl.
    now rewrite <- !app_assoc.
  - unfold record. simpl. now rewrite <- !app_assoc.
Qed.

Lemma unpack4_nonempty (l : list py_float) (rect : Rect) :
  unpack4 l = Ok rect -> exists x l', l = x :: l'.
Proof. destruct l as [|x l']; [discriminate | eauto]. Qed.
End Runs.

Section Paths.
Import PyStr PyStrFacts.

Lemma safe_char_not_slash (c : ascii) :
  safe_char c = true -> (code c =? 47)%N = false.
Proof.
  destruct c as [b0 b1 b2 b3 b4 b5 b6 b7].
  destruct b0, b1, b2, b3, b4, b5, b6, b7; vm_compute; congruence.
Qed.

Lemma split_slash_plain (cur l : list ascii) :
  Forall (fun c => safe_char c = true) l ->
  split_slash cur l = [rev cur ++ l].
Proof.
  intros H. revert cur. induction H as [|c l Hc _ IH]; intros cur; simpl.
  - now rewrite app_nil_r.
  - rewrite (safe_char_not_slash _ Hc), IH. simpl. now rewrite <- app_assoc.
Qed.

Lemma re_sub_unsafe_safe (s : string) :
  Forall (fun c => safe_char c = true) (chars (re_sub_unsafe s)).
Proof.
  unfold re_sub_unsafe. rewrite chars_of_chars.
  induction (chars s) as [|c l IH]; simpl; constructor; [|assumption].
  destruct (safe_char c) eqn:E; [assumption | reflexivity].
Qed.

Lemma Path_output (safe : string) :
  Forall (fun c => safe_char c = true) (chars safe) ->
  Path ("./output/" ++ safe)
  = if kept_component safe then ["output"; safe] else ["output"].
Proof.
  intros H. unfold Path. rewrite chars_app. simpl.
  rewrite (split_slash_plain [] _ H). simpl. rewrite of_chars_chars.
  rewrite filter_cons_False by (simpl; tauto).
  rewrite filter_cons_True by (simpl; tauto).
  destruct (kept_component safe) eqn:E.
  - rewrite filter_cons_True by now rewrite E. reflexivity.
  - rewrite filter_cons_False by now rewrite E. reflexivity.
Qed.

Lemma kept_component_inv (s : string) :
  kept_component s = true ->
  String.eqb s "" = false /\ String.eqb s "." = false.
Proof.
  unfold kept_component. intros H. apply andb_prop in H as [H1 H2].
  now apply negb_true_iff in H1, H2.
Qed.

Lemma resolve_output_child (s : string) :
  kept_component s = true ->
  resolve ["output"; s] = if String.eqb s ".." then [] else ["output"; s].
Proof.
  intros H. apply kept_component_inv in H as [H1 H2].
  unfold resolve. cbn [resolve_onto String.eqb Ascii.eqb Bool.eqb orb].
  rewrite H1, H2. cbn [orb]. now destruct (String.eqb s "..").
Qed.

Lemma prefixes_output_child (s : string) :
  kept_component s = true ->
  prefixes [] ["output"; s]
  = if String.eqb s ".." then [["output"]]
    else [["output"]; ["output"; s]].
Proof.
  intros H. cbn [prefixes app].
  change (resolve ["output"]) with ["output"].
  rewrite (resolve_output_child s H). now destruct (String.eqb s "..").
Qed.

Lemma created_by_mkdir (s : string) :
  Forall (fun c => safe_char c = true) (chars s) ->
  prefixes [] (Path ("./output/" ++ s))
  = if names_subdirectory s then [["output"]; ["output"; s]]
    else [["output"]].
Proof.
  intros H. rewrite (Path_output s H). unfold names_subdirectory.
  destruct (kept_component s) eqn:E; [|reflexivity].
  rewrite (prefixes_output_child s E). now destruct (String.eqb s "..").
Qed.

End Paths.

Section Capture.
Variable W : World.

Lemma mkdir_then_dirs {B} (p : path) (k : unit -> M B) (st : State) :
  stable dirs (k tt) ->
  dirs ((mkdir_parents p ≫= k) st).2
  = list_to_set (prefixes [] p) ∪ dirs st.
Proof. intros Hk. rewrite bind_mkdir. now rewrite Hk. Qed.

Lemma capture_title_dirs page pdf_name st :
  dirs (capture_title W page pdf_name st).2
  = list_to_set
      (prefixes []
         (Path ("./output/"
                ++ PyStr.re_sub_unsafe
                     (PyStr.replace_with_empty ".pdf" pdf_name))))
    ∪ dirs st.
Proof.
  unfold capture_title. apply mkdir_then_dirs.
  repeat first
    [ apply detect_title_and_crop_stable; [intros; apply dirs_emit | apply dirs_save]
    | apply title_recognition_stable; [intros; apply dirs_emit | apply dirs_save]
    | apply stable_bind; [| intros ? ]
    | apply dirs_emit | apply dirs_save
    | apply stable_ret | apply stable_lift | apply stable_read
    | apply stable_predict
    | match goal with
      | |- stable _ (match ?x with _ => _ end) => destruct x
      end ].
Qed.
End Capture.

Section OcrPath.
Variable W : World.

Lemma title_box_loop_miss safe tp fp (bs : list Box) (st : State) :
  Forall (fun x => label x <> "doc_title") bs ->
  title_box_loop W safe tp fp bs st = (Ok None, st).
Proof.
  intros H. rewrite <- (app_nil_r bs). now rewrite title_box_loop_skip.
Qed.

Lemma title_recognition_run tp (st : State) (cropped : Image) :
  files st !! tp = Some cropped ->
  (ocr_predict W cropped = Ok [] ->
   exists st', title_recognition W tp st = (Ok tt, st')
               /\ last (log st') = Some Printed_no_ocr_result)
  /\ (forall res others, ocr_predict W cropped = Ok (res :: others) ->
      exists st', title_recognition W tp st = (Ok tt, st')
                  /\ last (log st')
                     = Some (Printed_full_title
                               (PyStr.join "_" (rec_texts res)))).
Proof.
  intros Hfile. unfold title_recognition.
  rewrite bind_emit, (bind_predict _ _ _ _ _ cropped) by assumption. split.
  - intros ->. eexists. split; [reflexivity|]. apply last_snoc.
  - intros res others ->. rewrite !bind_emit.
    eexists. split; [reflexivity|]. apply last_snoc.
Qed.

Lemma detect_none safe dir fp (st : State) (img : Image) :
  files st !! fp = Some img ->
  (layout_predict W img = Ok [] ->
   exists st', detect_title_and_crop W safe dir fp st = (Ok None, st')
               /\ last (log st') = Some (Printed_layout_empty fp))
  /\ (forall resp more, layout_predict W img = Ok (resp :: more) ->
      Forall (fun x => label x <> "doc_title") (boxes resp) ->
      exists st', detect_title_and_crop W safe dir fp st = (Ok None, st')
                  /\ last (log st') = Some Printed_no_title).
Proof.
  intros Hfile. unfold detect_title_and_crop.
  rewrite bind_emit, (bind_predict _ _ _ _ _ img) by assumption. split.
  - intros ->. rewrite bind_emit. eexists. split; [reflexivity|].
    apply last_snoc.
  - intros resp more -> Hmiss.
    rewrite (bind_ok _ _ _ _ _ (title_box_loop_miss _ _ _ _ _ Hmiss)).
    rewrite bind_emit. eexists. split; [reflexivity|]. apply last_snoc.
Qed.

Lemma detect_found safe dir fp (st : State) (img cropped : Image)
    resp more pre b post rect :
  files st !! fp = Some img ->
  layout_predict W img = Ok (resp :: more) ->
  boxes resp = pre ++ b :: post ->
  Forall (fun x => label x <> "doc_title") pre ->
  label b = "doc_title" ->
  unpack4 (coordinate b) = Ok rect ->
  image_crop W img rect = Ok cropped ->
  exists st',
    detect_title_and_crop W safe dir fp st = (Ok (Some (dir ++ ["title.jpg"])), st')
    /\ files st' !! (dir ++ ["title.jpg"]) = Some cropped.
Proof.
  intros Hfile Hlayout Hboxes Hpre Hb Hrect Hcrop.
  unfold detect_title_and_crop.
  rewrite bind_emit, (bind_predict _ _ _ _ _ img) by assumption.
  rewrite Hlayout, Hboxes.
  erewrite bind_ok.
  2:{ rewrite title_box_loop_skip, title_box_loop_hit by assumption.
      rewrite (crop_title_box_run _ _ _ _ _ _ img rect) by assumption.
      rewrite Hcrop. reflexivity. }
  destruct (unpack4_nonempty _ _ Hrect) as (x & l' & ->).
  eexists. split; [reflexivity|]. simpl. apply fs_lookup_insert.
Qed.

Lemma capture_title_run page pdf_name (st : State) (img : Image) :
  to_image page = Ok img ->
  let safe := PyStr.re_sub_unsafe (PyStr.replace_with_empty ".pdf" pdf_name) in
  let dir := Path ("./output/" ++ safe) in
  exists st1,
    files st1 !! (dir ++ ["first_page.jpg"]) = Some img
    /\ capture_title W page pdf_name st
       = (detect_title_and_crop W safe dir (dir ++ ["first_page.jpg"]) ≫=
          fun title_image_path =>
            match title_image_path with
            | Some p => title_recognition W p
            | None => mret tt
            end) st1.
Proof.
  intros Himg safe dir. unfold capture_title. fold safe. fold dir.
  rewrite bind_mkdir, bind_emit, bind_lift, Himg, bind_save, bind_emit.
  eexists. split; [|reflexivity]. simpl. apply fs_lookup_insert.
Qed.

Lemma processPdf_visual f pdf p ps (st : State) :
  pdf_open f = Ok pdf -> pages pdf = p :: ps ->
  default "" (metadata pdf !! "Title") = "" ->
  images p <> [] ->
  processPdf W f st
  = (capture_title W p (name f) ≫= fun _ => mret fallback)
      (record st Printed_ocr_required).
Proof.
  intros Hopen Hpages Htitle Himages. unfold processPdf.
  rewrite bind_lift, Hopen, Hpages, Htitle. simpl.
  destruct (images p) as [|i rest]; [contradiction|]. simpl.
  rewrite andb_false_r. unfold mbind at 1, M_bind at 1.
  unfold mbind at 1, M_bind at 1. simpl. reflexivity.
Qed.
End OcrPath.

Lemma then_fallback (m : M unit) (st st' : State) :
  m st = (Ok tt, st') ->
  (m ≫= fun _ => mret fallback) st = (Ok fallback, st').
Proof. intros H. now rewrite (bind_ok _ _ _ _ _ H). Qed.

Lemma pair_fst {A B : Type} (x : A * B) (a : A) : x.1 = a -> x = (a, x.2).
Proof. intros <-. now destruct x. Qed.

(** * Properties of the pipeline *)

(** ** Metadata path: [form_title] *)

(** C7, as the code has it.  [form_title] is not idempotent, but applying it
    again (its result as title, empty author and date) settles after one
    step: with [o] a result of [form_title] and [o1] the result of applying
    it to [o], applying it to [o1] gives [o1] back. *)
Theorem form_title_reapplied_settles
    (title author creation_date o : string) :
  form_title title author creation_date = Ok o ->
  exists o1, form_title o "" "" = Ok o1 /\ form_title o1 "" "" = Ok o1.
Proof.
  intros H. apply RetitleFacts.form_title_closed in H as [m Hm].
  destruct (RetitleFacts.retitle_closed m) as (y & Hy & Hs).
  exists (PyStr.of_chars (y ++ Retitle.tail_brackets)). split.
  - rewrite RetitleFacts.form_title_retitle, Hm, Hy. reflexivity.
  - rewrite RetitleFacts.form_title_retitle, PyStrFacts.chars_of_chars.
    now rewrite (RetitleFacts.retitle_settled _ Hs).
Qed.

Lemma form_title_reapplied_settles_witness :
  exists o1, form_title "a[_]" "" "" = Ok o1 /\ form_title o1 "" "" = Ok o1.
Proof.
  apply (form_title_reapplied_settles "a" "" "" "a[_]"). reflexivity.
Defined.

(** C7 as stated fails: the result for title ["a"] is ["a[_]"], and
    [form_title] applied to that result gives ["a_[_]"]. *)
Lemma form_title_not_idempotent :
  exists o, form_title "a" "" "" = Ok o /\ form_title o "" "" <> Ok o.
Proof. exists "a[_]". split; [reflexivity | discriminate]. Qed.

(** C8.  When the creation date contains [D:] followed by fourteen digits
    and the first such run is not a valid [YYYYMMDDHHMMSS] timestamp,
    [form_title] raises [ValueError]; it does not fall back to the
    normalisation of plain dates. *)
Theorem form_title_invalid_packed_date_raises
    (title author creation_date pre g post : string) :
  first_packed_run creation_date pre g post ->
  (forall dt, PyDate.strptime g <> Ok dt) ->
  form_title title author creation_date = Raise ValueError.
Proof.
  intros Hrun Hbad. unfold form_title.
  rewrite (PyDateFacts.re_search_packed_first _ _ _ _ Hrun).
  destruct (PyDate.strptime g) as [dt|e] eqn:E.
  - now destruct (Hbad dt).
  - now rewrite (PyDateFacts.strptime_raises _ _ E).
Qed.

Lemma form_title_invalid_packed_date_raises_witness :
  form_title "T" "A" "D:20231301000000" = Raise ValueError.
Proof.
  apply (form_title_invalid_packed_date_raises
           "T" "A" "D:20231301000000" "" "20231301000000" "").
  - split; [reflexivity|]. split; [reflexivity|]. intros; simpl; lia.
  - intros dt. vm_compute. discriminate.
Defined.

(** C10.  Whenever [D:] followed by fourteen digits occurs anywhere in the
    creation date, the packed-date branch is taken, on the first such run:
    when the run reads as a moment of the calendar, the title is returned
    and the date in it is that moment written [Y-MM-DD_HH-MM-SS], with
    nothing of the text around the run; when it does not, [ValueError] is
    raised. *)
Theorem form_title_packed_date_anywhere
    (title author pre g post : string) :
  is_packed_run g = true ->
  exists pre0 g0 post0,
    first_packed_run (pre ++ "D:" ++ g ++ post) pre0 g0 post0
    /\ form_title title author (pre ++ "D:" ++ g ++ post) =
       if is_timestamp g0 then
         Ok (PyStr.strip_underscores
               (PyStr.re_sub_underscores
                  (PyStr.re_sub_nonword (PyStr.strip title) ++ "["
                   ++ PyStr.re_sub_nonword (PyStr.strip author) ++ "_"
                   ++ reformatted g0 ++ "]")%string))
       else Raise ValueError.
Proof.
  intros Hg.
  destruct (PyDateFacts.re_search_packed_occurs pre g post Hg) as [g0 E].
  destruct (PyDateFacts.re_search_packed_inv _ _ E) as (pre0 & post0 & Hrun).
  exists pre0, g0, post0. split; [assumption|].
  destruct Hrun as (_ & Hg0 & _).
  pose proof (PyDateFacts.strptime_packed g0 Hg0) as Hdate.
  unfold form_title. rewrite E.
  destruct (PyDate.strptime g0) as [dt|e].
  - destruct Hdate as [-> ->]. reflexivity.
  - destruct Hdate as [-> ->]. reflexivity.
Qed.

(** A creation date with text before the packed date and text, and a
    shorter run of digits, after it: the title holds the reformatted
    timestamp and nothing of the text around it. *)
Lemma form_title_packed_date_anywhere_witness :
  form_title "Deep Learning" "Ian" "see D:20240229134501+02'00' or D:1"
  = Ok "Deep_Learning[Ian_2024-02-29_13-45-01]".
Proof.
  destruct (form_title_packed_date_anywhere
              "Deep Learning" "Ian" "see " "20240229134501" "+02'00' or D:1"
              eq_refl)
    as (pre0 & g0 & post0 & Hrun & Htitle).
  apply PyDateFacts.re_search_packed_first in Hrun.
  change (Some "20240229134501" = Some g0) in Hrun.
  injection Hrun as <-. exact Htitle.
Defined.

(** The run is the first one, a run that is no moment of the calendar
    raises although a later one is, and the year is written without
    leading zeros. *)
Example form_title_packed_runs :
  form_title "T" "A" "D:20240229134501 D:19990101000000"
  = Ok "T[A_2024-02-29_13-45-01]"
  /\ form_title "T" "A" "D:20230229134501 D:19990101000000"
     = Raise ValueError
  /\ form_title "T" "A" "D:00010203040506" = Ok "T[A_1-02-03_04-05-06]"
  /\ form_title "T" "A" "D:09870203040506" = Ok "T[A_987-02-03_04-05-06]".
Proof. repeat split; reflexivity. Qed.

(** ** [processPdf] before the visual path *)

(** C5.  A document without pages resolves to the no-pages result whatever
    its metadata holds, and nothing else happens. *)
Theorem processPdf_no_pages
    (W : World) (f : PdfFile) (pdf : Document) (st : State) :
  pdf_open f = Ok pdf ->
  pages pdf = [] ->
  processPdf W f st = (Ok "No pages found in this PDF", st).
Proof.
  intros Hopen Hpages. unfold processPdf, mbind, M_bind, lift.
  rewrite Hopen, Hpages. reflexivity.
Qed.

Lemma processPdf_no_pages_witness :
  processPdf (Sample.world []) Sample.no_pages Sample.start
  = (Ok "No pages found in this PDF", Sample.start).
Proof.
  apply (processPdf_no_pages _ Sample.no_pages
           (mk_document [] {[ "Title" := "Ghost" ]}));
    reflexivity.
Defined.

(** C6.  With an empty metadata title, a first page that has text and no
    embedded image resolves to the unable-to-read result; the state is left
    as it was, so no collaborator of the visual path was called. *)
Theorem processPdf_text_without_images
    (W : World) (f : PdfFile) (pdf : Document) (p : Page) (ps : list Page)
    (st : State) :
  pdf_open f = Ok pdf ->
  pages pdf = p :: ps ->
  default "" (metadata pdf !! "Title") = "" ->
  extract_text p <> "" ->
  images p = [] ->
  processPdf W f st = (Ok fallback, st).
Proof.
  intros Hopen Hpages Ht Htext Himg. unfold processPdf, mbind, M_bind, lift.
  rewrite Hopen, Hpages, Ht, Himg. simpl.
  destruct (extract_text p) as [|c r]; [congruence|]. reflexivity.
Qed.

Lemma processPdf_text_without_images_witness :
  processPdf (Sample.world [Sample.high_box]) Sample.text_only Sample.start
  = (Ok fallback, Sample.start).
Proof.
  apply (processPdf_text_without_images _ Sample.text_only
           (mk_document [Sample.text_page] ∅) Sample.text_page []);
    (reflexivity || discriminate).
Defined.

(** ** Title region: selection and crop *)

(** C2, as the code has it.  The box that is cropped is the first box
    labelled [doc_title] in the order of the layout answer, whatever the
    scores and whatever follows it; the value of the loop is that box's
    coordinate. *)
Theorem title_box_loop_first_match
    (W : World) (safe : string) (tp fp : path)
    (pre post : list Box) (b : Box) (st : State) :
  Forall (fun x => label x <> "doc_title") pre ->
  label b = "doc_title" ->
  title_box_loop W safe tp fp (pre ++ b :: post) st
  = crop_title_box W safe tp fp b st
  /\ forall r st', crop_title_box W safe tp fp b st = (Ok r, st') ->
                   r = Some (coordinate b).
Proof.
  intros Hpre Hb. split.
  - rewrite title_box_loop_skip by assumption. now apply title_box_loop_hit.
  - unfold crop_title_box. intros r st'.
    rewrite bind_emit. unfold mbind at 1, M_bind at 1.
    destruct (read fp _) as [[img|e] st1]; [|discriminate].
    rewrite bind_lift. destruct (unpack4 _) as [[[[x1 y1] x2] y2]|e];
      [|discriminate].
    rewrite bind_emit, bind_lift. destruct (image_crop _ _ _); [|discriminate].
    rewrite bind_save, bind_emit. now intros [= <- _].
Qed.

Lemma title_box_loop_first_match_witness :
  title_box_loop (Sample.world []) "scan" Sample.title_path
    Sample.first_page_path
    ([Sample.text_box] ++ Sample.low_box :: [Sample.high_box]) Sample.captured
  = crop_title_box (Sample.world []) "scan" Sample.title_path
      Sample.first_page_path Sample.low_box Sample.captured.
Proof.
  apply (title_box_loop_first_match (Sample.world []) "scan"
           Sample.title_path Sample.first_page_path
           [Sample.text_box] [Sample.high_box] Sample.low_box Sample.captured).
  - repeat constructor. discriminate.
  - reflexivity.
Defined.

(** C2 as stated fails: with the title boxes of confidence 0.4 and 0.91 in
    that order the box of confidence 0.4 is selected, and the same boxes in
    the other order give the other box. *)
Lemma title_selection_follows_order :
  (title_box_loop (Sample.world []) "scan" Sample.title_path
     Sample.first_page_path [Sample.low_box; Sample.high_box]
     Sample.captured).1
  = Ok (Some (coordinate Sample.low_box))
  /\ (title_box_loop (Sample.world []) "scan" Sample.title_path
        Sample.first_page_path [Sample.high_box; Sample.low_box]
        Sample.captured).1
     = Ok (Some (coordinate Sample.high_box))
  /\ [Sample.low_box; Sample.high_box] ≡ₚ [Sample.high_box; Sample.low_box]
  /\ score Sample.low_box = Finite 0.4
  /\ score Sample.high_box = Finite 0.91
  /\ (0.4 < 0.91)%Q
  /\ coordinate Sample.low_box <> coordinate Sample.high_box.
Proof.
  repeat split; try reflexivity.
  - apply perm_swap.
  - discriminate.
Qed.

(** C4, as the code has it.  The four coordinates of the title box are
    truncated to integers and handed to the image library as they are,
    whatever the extent of the page image: nothing is clamped.  The step
    raises exactly when the library's crop does, and saves what the library
    returns. *)
Theorem crop_title_box_unclamped
    (W : World) (safe : string) (tp fp : path) (b : Box)
    (st : State) (img : Image) (a1 a2 a3 a4 : Q) :
  files st !! fp = Some img ->
  coordinate b = [Finite a1; Finite a2; Finite a3; Finite a4] ->
  let rect := (truncate a1, truncate a2, truncate a3, truncate a4) in
  crop_title_box W safe tp fp b st
  = match image_crop W img rect with
    | Ok cropped =>
        (Ok (Some (coordinate b)),
         {| dirs := dirs st; files := <[tp := cropped]> (files st);
            log := log st ++ [Called_image_open fp; Called_crop rect;
                              Printed_title_saved safe tp] |})
    | Raise e =>
        (Raise e,
         {| dirs := dirs st; files := files st;
            log := log st ++ [Called_image_open fp; Called_crop rect] |})
    end.
Proof.
  intros Hfile Hc rect. apply crop_title_box_run; [assumption|].
  now rewrite Hc.
Qed.

Lemma crop_title_box_unclamped_witness :
  crop_title_box (Sample.world []) "scan" Sample.title_path
    Sample.first_page_path Sample.wide_box Sample.captured
  = (Ok (Some (coordinate Sample.wide_box)),
     {| dirs := dirs Sample.captured;
        files := <[Sample.title_path := Sample.title_image]>
                   (files Sample.captured);
        log := log Sample.captured
               ++ [Called_image_open Sample.first_page_path;
                   Called_crop (50, 50, 150, 150)%Z;
                   Printed_title_saved "scan" Sample.title_path] |}).
Proof.
  apply (crop_title_box_unclamped (Sample.world []) "scan" Sample.title_path
           Sample.first_page_path Sample.wide_box Sample.captured
           Sample.page_image 50 50 150 150);
    reflexivity.
Defined.

(** C4 as stated fails: on a page image of 100 x 100 the box
    (50, 50, 150, 150) is passed to the crop as it is, not cut down to
    (50, 50, 100, 100). *)
Lemma crop_rectangle_not_clamped :
  let run := crop_title_box (Sample.world []) "scan" Sample.title_path
               Sample.first_page_path Sample.wide_box Sample.captured in
  files Sample.captured !! Sample.first_page_path = Some Sample.page_image
  /\ log run.2 = [Called_image_open Sample.first_page_path;
                  Called_crop (50, 50, 150, 150)%Z;
                  Printed_title_saved "scan" Sample.title_path]
  /\ clamp_to_extent Sample.page_image (50, 50, 150, 150)%Z
     = (50, 50, 100, 100)%Z
  /\ ~ In (Called_crop (clamp_to_extent Sample.page_image
                          (50, 50, 150, 150)%Z)) (log run.2).
Proof.
  repeat split; try reflexivity.
  vm_compute. intros [H|[H|[H|[]]]]; discriminate.
Qed.

(** ** Visual path *)



(** The file [...pdf]: its name for the output directory is [".."], the
    directory [output/..] is the working directory, only [output] is made
    and the two pictures are written beside it. *)
Example output_directory_of_dots :
  let st' := (capture_title (Sample.world [Sample.high_box])
                Sample.scanned_page "...pdf" Sample.start).2 in
  PyStr.re_sub_unsafe (PyStr.replace_with_empty ".pdf" "...pdf") = ".."
  /\ elements (dirs st') = [["output"]]
  /\ files st' !! ["first_page.jpg"] = Some Sample.page_image
  /\ files st' !! ["title.jpg"] = Some Sample.title_image
  /\ files st' !! ["output"; "first_page.jpg"] = None.
Proof. repeat split; vm_compute; reflexivity. Qed.

(** C1, as the code has it.  For a document that enters the OCR path and
    whose first page is rasterised, the value returned by [processPdf] is
    the generic unable-to-read result in every case; the outcome of the OCR
    only reaches the console, as the last line printed for the document:
    the fragments joined by ["_"] when a title box is found, cropped and
    recognised, the no-title line when no box is labelled [doc_title] (the
    empty-output line when the layout model answers nothing), the
    no-result line when the recognition returns no result object. *)
Theorem processPdf_ocr_path_returns_fallback
    (W : World) (f : PdfFile) (pdf : Document) (p : Page)
    (ps : list Page) (img : Image) (st : State) :
  pdf_open f = Ok pdf ->
  pages pdf = p :: ps ->
  default "" (metadata pdf !! "Title") = "" ->
  images p <> [] ->
  to_image p = Ok img ->
  (layout_predict W img = Ok [] ->
   exists st', processPdf W f st = (Ok fallback, st')
               /\ exists fp, last (log st') = Some (Printed_layout_empty fp))
  /\ (forall resp more,
        layout_predict W img = Ok (resp :: more) ->
        Forall (fun x => label x <> "doc_title") (boxes resp) ->
        exists st', processPdf W f st = (Ok fallback, st')
                    /\ last (log st') = Some Printed_no_title)
  /\ (forall resp more pre b post rect cropped,
        layout_predict W img = Ok (resp :: more) ->
        boxes resp = pre ++ b :: post ->
        Forall (fun x => label x <> "doc_title") pre ->
        label b = "doc_title" ->
        unpack4 (coordinate b) = Ok rect ->
        image_crop W img rect = Ok cropped ->
        (ocr_predict W cropped = Ok [] ->
         exists st', processPdf W f st = (Ok fallback, st')
                     /\ last (log st') = Some Printed_no_ocr_result)
        /\ (forall res others,
              ocr_predict W cropped = Ok (res :: others) ->
              exists st',
                processPdf W f st = (Ok fallback, st')
                /\ last (log st')
                   = Some (Printed_full_title
                             (PyStr.join "_" (rec_texts res))))).
Proof.
  intros Hopen Hpages Htitle Himages Himg.
  rewrite (processPdf_visual W f pdf p ps st Hopen Hpages Htitle Himages).
  destruct (capture_title_run W p (name f) (record st Printed_ocr_required)
              img Himg) as (st1 & Hfile & Hcap).
  set (safe := PyStr.re_sub_unsafe (PyStr.replace_with_empty ".pdf" (name f))).
  set (dir := Path ("./output/" ++ safe)).
  fold safe dir in Hfile, Hcap.
  destruct (detect_none W safe dir _ st1 img Hfile) as [Hempty Hmiss].
  split; [|split].
  - intros Hl. destruct (Hempty Hl) as (st' & Hrun & Hlast).
    exists st'. split; [|eauto]. apply then_fallback.
    rewrite Hcap. now rewrite (bind_ok _ _ _ _ _ Hrun).
  - intros resp more Hl Hno.
    destruct (Hmiss resp more Hl Hno) as (st' & Hrun & Hlast).
    exists st'. split; [|assumption]. apply then_fallback.
    rewrite Hcap. now rewrite (bind_ok _ _ _ _ _ Hrun).
  - intros resp more pre b post rect cropped Hl Hb Hpre Hlab Hrect Hcrop.
    destruct (detect_found W safe dir _ st1 img cropped resp more pre b post
                rect Hfile Hl Hb Hpre Hlab Hrect Hcrop) as (st2 & Hrun & Hf2).
    destruct (title_recognition_run W _ st2 cropped Hf2) as [Hnone Hsome].
    split.
    + intros Ho. destruct (Hnone Ho) as (st' & Hrec & Hlast).
      exists st'. split; [|assumption]. apply then_fallback.
      rewrite Hcap. now rewrite (bind_ok _ _ _ _ _ Hrun).
    + intros res others Ho.
      destruct (Hsome res others Ho) as (st' & Hrec & Hlast).
      exists st'. split; [|assumption]. apply then_fallback.
      rewrite Hcap. now rewrite (bind_ok _ _ _ _ _ Hrun).
Qed.

Lemma processPdf_ocr_path_returns_fallback_witness :
  exists st',
    processPdf (Sample.world [Sample.text_box; Sample.high_box])
      Sample.scanned Sample.start = (Ok fallback, st')
    /\ last (log st') = Some (Printed_full_title "Deep_Learning").
Proof.
  destruct (processPdf_ocr_path_returns_fallback
              (Sample.world [Sample.text_box; Sample.high_box])
              Sample.scanned (mk_document [Sample.scanned_page] ∅)
              Sample.scanned_page [] Sample.page_image Sample.start)
    as (_ & _ & H); try reflexivity; try discriminate.
  destruct (H (mk_layout [Sample.text_box; Sample.high_box]) []
              [Sample.text_box] Sample.high_box [] (10, 10, 20, 18)%Z
              Sample.title_image) as [_ H'];
    try reflexivity.
  - repeat constructor. discriminate.
  - exact (H' (mk_ocr ["Deep"; "Learning"] [Finite 0.9; Finite 0.8]) []
              eq_refl).
Defined.

(** C1 as stated fails: a scanned first page whose title box is found and
    whose recognition returns the fragments [Deep] and [Learning] resolves
    to the unable-to-read result, not to [Deep_Learning]. *)
Lemma processPdf_ocr_result_not_title :
  let run := processPdf (Sample.world [Sample.text_box; Sample.high_box])
               Sample.scanned Sample.start in
  run.1 = Ok "System unable to read the first page"
  /\ In (Printed_title_saved "scan" Sample.title_path) (log run.2)
  /\ In (Printed_full_title (PyStr.join "_" ["Deep"; "Learning"])) (log run.2)
  /\ run.1 <> Ok (PyStr.join "_" ["Deep"; "Learning"]).
Proof.
  repeat split; try (vm_compute; tauto). vm_compute. discriminate.
Qed.

(** ** Batch loop *)

(** C3, as the code has it.  While no document raises, the loop prints one
    outcome per document, in the order of the list.  The first document
    whose processing raises ends the loop with that exception: the outcomes
    printed are those of the documents before it, and none is recorded for
    it or for any document after it. *)
Theorem batch_stops_at_first_failure
    (W : World) (pre : list PdfFile) (rs : list string) (st st1 : State) :
  processed W st pre rs st1 ->
  length rs = length pre
  /\ batch W pre st = (Ok tt, st1)
  /\ outcomes (log st1) = outcomes (log st) ++ rs
  /\ forall (f : PdfFile) (post : list PdfFile) (e : py_exn) (st2 : State),
       processPdf W f (record st1 (Printed_banner (name f))) = (Raise e, st2) ->
       batch W (pre ++ f :: post) st = (Raise e, st2)
       /\ outcomes (log st2) = outcomes (log st) ++ rs.
Proof.
  intros H. destruct (processed_run W _ _ _ _ H) as (Hlen & Hout & Hrun).
  split; [assumption|]. split; [|split; [assumption|]].
  - rewrite <- (app_nil_r pre). now rewrite Hrun.
  - intros f post e st2 Hf. split.
    + now rewrite Hrun, batch_step, Hf.
    + pose proof (processPdf_quiet W f
                    (record st1 (Printed_banner (name f)))) as Hq.
      rewrite Hf, outcomes_record_banner in Hq. simpl in Hq. now rewrite Hq.
Qed.

Lemma batch_stops_at_first_failure_witness :
  exists st2,
    batch (Sample.world [Sample.high_box])
      ([Sample.titled] ++ Sample.broken :: [Sample.scanned]) Sample.start
    = (Raise (ExternalError "to_image"), st2)
    /\ outcomes (log st2) = outcomes (log Sample.start) ++ ["Deep_Learning[_]"].
Proof.
  set (W := Sample.world [Sample.high_box]).
  set (st1 := (processPdf W Sample.titled
                 (record Sample.start (Printed_banner "titled.pdf"))).2).
  set (st2 := (processPdf W Sample.broken
                 (record (record st1 (Printed_result "Deep_Learning[_]"))
                         (Printed_banner "broken.pdf"))).2).
  exists st2.
  apply (batch_stops_at_first_failure W [Sample.titled] ["Deep_Learning[_]"]
           Sample.start (record st1 (Printed_result "Deep_Learning[_]"))).
  - apply (processed_cons W Sample.start st1 _ Sample.titled []
             "Deep_Learning[_]" []); [|apply processed_nil].
    apply pair_fst. vm_compute. reflexivity.
  - apply pair_fst. vm_compute. reflexivity.
Defined.

(** C3 as stated fails: in a batch of two documents whose first one fails
    to rasterise, the loop ends with the exception and no outcome at all is
    recorded, although the second document is readable. *)
Lemma batch_failure_ends_loop :
  let run := batch (Sample.world [Sample.high_box])
               [Sample.broken; Sample.scanned] Sample.start in
  run.1 = Raise (ExternalError "to_image")
  /\ outcomes (log run.2) = []
  /\ (processPdf (Sample.world [Sample.high_box]) Sample.scanned
        Sample.start).1 = Ok fallback.
Proof. repeat split; vm_compute; reflexivity. Qed.

(** * Further properties *)

(** ** Shape of the titles built by [form_title] *)

Module TitleShape.
Import PyStr PyStrFacts.

Lemma clean_no_double (l u v : list ascii) (b : bool) :
  clean b l = true -> l <> u ++ underscore :: underscore :: v.
Proof.
  revert l b. induction u as [|x u IH]; intros l b H E; subst l; simpl in H.
  - now rewrite andb_false_r in H.
  - destruct (is_underscore x).
    + apply andb_prop in H as [_ H]. now apply (IH _ _ H).
    + now apply (IH _ _ H).
Qed.

Lemma clean_app_stop (l : list ascii) (c : ascii) (b : bool) :
  is_underscore c = false -> clean b l = true -> clean b (l ++ [c]) = true.
Proof.
  intros Hc. revert b. induction l as [|x l IH]; intros b H; simpl in *.
  - now rewrite Hc.
  - destruct (is_underscore x).
    + apply andb_prop in H as [Hb H]. now rewrite Hb, (IH _ H).
    + now apply IH.
Qed.

Lemma lstrip_head (p : ascii -> bool) (l r : list ascii) (c : ascii) :
  lstrip p l = c :: r -> p c = false.
Proof.
  induction l as [|x l IH]; simpl; [discriminate|].
  destruct (p x) eqn:Hx; [assumption|]. now intros [= <- _].
Qed.

Lemma digit_char_word (n : N) : is_word (PyDate.digit_char n) = true.
Proof.
  unfold PyDate.digit_char.
  assert (H : (n mod 10 < 10)%N) by now apply N.mod_lt.
  destruct (n mod 10)%N as [|k]; [reflexivity|].
  do 4 (destruct k as [k|k|]; try reflexivity; try lia).
Qed.

Lemma strftime_allowed (dt : PyDate.datetime) :
  Forall (fun c => allowed_in_title c = true) (chars (PyDate.strftime dt)).
Proof.
  unfold PyDate.strftime. rewrite chars_of_chars.
  unfold PyDate.year_digits, PyDate.pad4, PyDate.pad2.
  destruct (_ <? 10)%N; [|destruct (_ <? 100)%N; [|destruct (_ <? 1000)%N]];
    simpl;
    repeat constructor;
    try (unfold allowed_in_title; now rewrite digit_char_word).
Qed.

Lemma re_sub_nonword_allowed (s : string) :
  Forall (fun c => allowed_in_title c = true) (chars (re_sub_nonword s)).
Proof.
  unfold re_sub_nonword. rewrite chars_of_chars.
  eapply List.Forall_impl; [|apply sub_runs_outside].
  intros c [Hc| ->]; [|reflexivity].
  unfold is_nonword in Hc. apply negb_false_iff in Hc.
  unfold allowed_in_title. now rewrite Hc.
Qed.

(** The characters of a result: the formatted string with its runs of
    underscores collapsed and the leading underscores removed; the closing
    bracket stops the stripping on the right. *)
Lemma form_title_chars (t a d o : string) :
  form_title t a d = Ok o ->
  exists x,
    Forall (fun c => allowed_in_title c = true) x
    /\ chars o
       = lstrip is_underscore (sub_runs is_underscore false x) ++ ["]"%char].
Proof.
  unfold form_title.
  destruct (match PyDate.re_search_packed d with
            | Some g => _ | None => _ end) as [cd|e] eqn:E; [|discriminate].
  intros [= <-]. unfold strip_underscores, re_sub_underscores.
  rewrite !chars_of_chars, !chars_app.
  change (chars "]") with ["]"%char].
  rewrite !app_assoc. rewrite RetitleFacts.normalise_closed.
  eexists. split; [|reflexivity].
  assert (Hcd : Forall (fun c => allowed_in_title c = true) (chars cd)).
  { destruct (PyDate.re_search_packed d) as [g|].
    - destruct (PyDate.strptime g) as [dt|]; [|discriminate].
      injection E as <-. apply strftime_allowed.
    - injection E as <-. apply re_sub_nonword_allowed. }
  repeat (apply Forall_app; split); auto using re_sub_nonword_allowed;
    repeat constructor.
Qed.
End TitleShape.

Lemma of_chars_app (a b : list ascii) :
  PyStr.of_chars (a ++ b) = (PyStr.of_chars a ++ PyStr.of_chars b)%string.
Proof.
  induction a as [|c a IH]; [reflexivity|].
  change (String c (PyStr.of_chars (a ++ b))
          = String c (PyStr.of_chars a ++ PyStr.of_chars b)%string).
  now rewrite IH.
Qed.

(** X1.  A title returned by [form_title] ends with the closing bracket,
    does not start with an underscore and holds no two underscores in a
    row. *)
Theorem form_title_result_shape (title author creation_date o : string) :
  form_title title author creation_date = Ok o ->
  (exists m, o = (m ++ "]")%string)
  /\ (forall v, o <> ("_" ++ v)%string)
  /\ (forall u v, o <> (u ++ "__" ++ v)%string).
Proof.
  intros H. apply TitleShape.form_title_chars in H as (x & _ & Hx).
  set (y := PyStr.lstrip PyStr.is_underscore
              (PyStr.sub_runs PyStr.is_underscore false x)) in Hx.
  split; [|split].
  - exists (PyStr.of_chars y).
    rewrite <- (PyStrFacts.of_chars_chars o), Hx. apply of_chars_app.
  - intros v E. rewrite E in Hx. simpl in Hx.
    destruct y as [|c y'] eqn:Ey; [discriminate|].
    injection Hx as <- _.
    now apply TitleShape.lstrip_head in Ey.
  - intros u v E.
    apply (TitleShape.clean_no_double (PyStr.chars o) (PyStr.chars u)
             (PyStr.chars v) false).
    + rewrite Hx. apply TitleShape.clean_app_stop; [reflexivity|].
      eapply PyStrFacts.clean_lstrip, PyStrFacts.clean_sub_runs.
    + rewrite E. now rewrite !PyStrFacts.chars_app.
Qed.

Lemma form_title_result_shape_witness :
  (exists m, "My_Title[A_B_2016]" = (m ++ "]")%string)
  /\ (forall v, "My_Title[A_B_2016]" <> ("_" ++ v)%string)
  /\ (forall u v, "My_Title[A_B_2016]" <> (u ++ "__" ++ v)%string).
Proof.
  apply (form_title_result_shape " My  Title " "A. B." "2016"). reflexivity.
Defined.

(** X2.  A title returned by [form_title] is made of word characters,
    the two brackets and the hyphen only: no white space, no path
    separator. *)
Theorem form_title_result_alphabet (title author creation_date o : string) :
  form_title title author creation_date = Ok o ->
  Forall (fun c => allowed_in_title c = true) (PyStr.chars o).
Proof.
  intros H. apply TitleShape.form_title_chars in H as (x & Hall & ->).
  apply Forall_app. split; [|repeat constructor].
  apply PyStrFacts.lstrip_Forall, PyStrFacts.sub_runs_Forall;
    [reflexivity | assumption].
Qed.

Lemma form_title_result_alphabet_witness :
  Forall (fun c => allowed_in_title c = true)
         (PyStr.chars "Deep_Learning[Ian_Goodfellow_2023-09-01_00-00-00]").
Proof.
  apply (form_title_result_alphabet
           "Deep Learning" "Ian Goodfellow" "D:20230901000000Z").
  reflexivity.
Defined.

(** X3.  [form_title] raises nothing but [ValueError], and only when the
    creation date holds [D:] followed by fourteen digits whose first such
    run is not a timestamp. *)
Theorem form_title_raises_only_on_packed_date
    (title author creation_date : string) (e : py_exn) :
  form_title title author creation_date = Raise e ->
  e = ValueError
  /\ exists pre g post,
       first_packed_run creation_date pre g post
       /\ PyDate.strptime g = Raise ValueError.
Proof.
  unfold form_title.
  destruct (PyDate.re_search_packed creation_date) as [g|] eqn:E;
    [|discriminate].
  destruct (PyDate.strptime g) as [dt|e'] eqn:Eg; [discriminate|].
  intros [= <-].
  assert (He := PyDateFacts.strptime_raises _ _ Eg). subst e'.
  split; [reflexivity|].
  destruct (PyDateFacts.re_search_packed_inv _ _ E) as (pre & post & Hrun).
  now exists pre, g, post.
Qed.

Lemma form_title_raises_only_on_packed_date_witness :
  ValueError = ValueError
  /\ exists pre g post,
       first_packed_run "made D:20230230120000" pre g post
       /\ PyDate.strptime g = Raise ValueError.
Proof.
  apply (form_title_raises_only_on_packed_date "T" "A" "made D:20230230120000").
  reflexivity.
Defined.

(** X4.  When the creation date holds no [D:] followed by fourteen digits,
    [form_title] does not raise, and the date enters the title stripped,
    with its runs of non-word characters turned into underscores. *)
Theorem form_title_plain_date (title author creation_date : string) :
  (forall pre g post,
      creation_date = (pre ++ "D:" ++ g ++ post)%string ->
      is_packed_run g = false) ->
  form_title title author creation_date
  = Ok (PyStr.strip_underscores
          (PyStr.re_sub_underscores
             (PyStr.re_sub_nonword (PyStr.strip title) ++ "["
              ++ PyStr.re_sub_nonword (PyStr.strip author) ++ "_"
              ++ PyStr.re_sub_nonword (PyStr.strip creation_date)
              ++ "]")%string)).
Proof.
  intros Hno. unfold form_title.
  destruct (PyDate.re_search_packed creation_date) as [g|] eqn:E;
    [|reflexivity].
  destruct (PyDateFacts.re_search_packed_inv _ _ E)
    as (pre & post & Hd & Hg & _).
  rewrite (Hno pre g post Hd) in Hg. discriminate.
Qed.

(** A date that holds [D:] but no fourteen digits after it. *)
Lemma form_title_plain_date_witness :
  form_title "T" "A" "D:2016-09 (v2)" = Ok "T[A_D_2016_09_v2_]".
Proof.
  rewrite (form_title_plain_date "T" "A" "D:2016-09 (v2)");
    [reflexivity|].
  intros pre g post E.
  destruct (is_packed_run g) eqn:Hg; [exfalso | reflexivity].
  unfold is_packed_run in Hg. apply andb_prop in Hg as [Hlen _].
  apply Nat.eqb_eq in Hlen.
  apply (f_equal String.length) in E.
  rewrite <- !PyStrFacts.length_chars, !PyStrFacts.chars_app in E.
  rewrite !length_app, !PyStrFacts.length_chars, Hlen in E.
  simpl in E. lia.
Defined.

(** ** Outcomes of [processPdf] *)

(** X6.  Whatever the collaborators answer, a value returned by
    [processPdf] is one of the three fixed results or the title that
    [form_title] builds from a non-empty metadata title; the text read by
    the OCR is never returned. *)
Theorem processPdf_result_range
    (W : World) (f : PdfFile) (st st' : State) (r : string) :
  processPdf W f st = (Ok r, st') ->
  r = "No pages found in this PDF"
  \/ r = "Page 1 is empty"
  \/ r = fallback
  \/ exists pdf t,
       pdf_open f = Ok pdf
       /\ metadata pdf !! "Title" = Some t /\ t <> ""
       /\ form_title t (default "" (metadata pdf !! "Author"))
                     (default "" (metadata pdf !! "CreationDate")) = Ok r
       /\ st' = st.
Proof.
  unfold processPdf. rewrite bind_lift.
  destruct (pdf_open f) as [pdf|e]; [|discriminate].
  destruct (length (pages pdf) =? 0); [intros [= <- _]; now left|].
  destruct (metadata pdf !! "Title") as [t|] eqn:Et; simpl;
    [destruct t as [|c t]; simpl|].
  2:{ unfold lift. intros [= Hf <-]. right; right; right.
      exists pdf, (String c t). repeat split; auto; try discriminate. }
  all: destruct (pages pdf) as [|first_page rest]; [discriminate|].
  all: destruct (negb _ && negb _);
    [intros [= <- _]; right; now left|].
  all: unfold mbind at 1, M_bind at 1.
  all: match goal with
       | |- (let (_, _) := ?x in _) = _ -> _ => destruct x as [[u|e] st1]
       end; [|discriminate].
  all: intros [= <- _]; right; right; now left.
Qed.

Lemma processPdf_result_range_witness :
  "Deep_Learning[_]" = "No pages found in this PDF"
  \/ "Deep_Learning[_]" = "Page 1 is empty"
  \/ "Deep_Learning[_]" = fallback
  \/ exists pdf t,
       pdf_open Sample.titled = Ok pdf
       /\ metadata pdf !! "Title" = Some t /\ t <> ""
       /\ form_title t (default "" (metadata pdf !! "Author"))
                     (default "" (metadata pdf !! "CreationDate"))
          = Ok "Deep_Learning[_]"
       /\ Sample.start = Sample.start.
Proof.
  apply (processPdf_result_range (Sample.world []) Sample.titled
           Sample.start Sample.start).
  reflexivity.
Defined.

(** X7.  A non-empty metadata title decides the outcome whatever the first
    page holds: the value is what [form_title] gives for the title, the
    author and the creation date (each missing key read as the empty
    string), an exception of [form_title] is raised as it is, and nothing
    is written, printed or asked from the models. *)
Theorem processPdf_metadata_first
    (W : World) (f : PdfFile) (pdf : Document) (p : Page) (ps : list Page)
    (t : string) (st : State) :
  pdf_open f = Ok pdf ->
  pages pdf = p :: ps ->
  metadata pdf !! "Title" = Some t ->
  t <> "" ->
  processPdf W f st
  = (form_title t (default "" (metadata pdf !! "Author"))
                  (default "" (metadata pdf !! "CreationDate")), st).
Proof.
  intros Hopen Hpages Ht Hne. unfold processPdf.
  rewrite bind_lift, Hopen, Hpages, Ht. simpl.
  destruct t as [|c t]; [contradiction|]. reflexivity.
Qed.

Lemma processPdf_metadata_first_witness :
  processPdf (Sample.world [Sample.high_box])
    (mk_pdf "scan.pdf"
       (Ok (mk_document [Sample.scanned_page]
              {[ "Title" := "Deep Learning" ]})))
    Sample.start
  = (Ok "Deep_Learning[_]", Sample.start).
Proof.
  rewrite (processPdf_metadata_first _ _
             (mk_document [Sample.scanned_page]
                {[ "Title" := "Deep Learning" ]})
             Sample.scanned_page [] "Deep Learning");
    [vm_compute; reflexivity | reflexivity | reflexivity | reflexivity
    | discriminate].
Defined.

(** X8.  With an empty metadata title, a first page without text and
    without embedded image resolves to the empty-page result, and nothing
    else happens. *)
Theorem processPdf_empty_page
    (W : World) (f : PdfFile) (pdf : Document) (p : Page) (ps : list Page)
    (st : State) :
  pdf_open f = Ok pdf ->
  pages pdf = p :: ps ->
  default "" (metadata pdf !! "Title") = "" ->
  extract_text p = "" ->
  images p = [] ->
  processPdf W f st = (Ok "Page 1 is empty", st).
Proof.
  intros Hopen Hpages Ht Htext Himg. unfold processPdf.
  rewrite bind_lift, Hopen, Hpages, Ht, Htext, Himg. reflexivity.
Qed.

Lemma processPdf_empty_page_witness :
  processPdf (Sample.world [])
    (mk_pdf "blank.pdf"
       (Ok (mk_document [mk_page "" [] (Ok Sample.page_image)] ∅)))
    Sample.start
  = (Ok "Page 1 is empty", Sample.start).
Proof.
  apply (processPdf_empty_page _ _
           (mk_document [mk_page "" [] (Ok Sample.page_image)] ∅)
           (mk_page "" [] (Ok Sample.page_image)) []);
    reflexivity.
Defined.

(** X9.  When the first page cannot be rasterised, [processPdf] raises the
    exception of [to_image]: the output directory has been created, no file
    has been written and no model has been asked. *)
Theorem processPdf_rasterization_failure
    (W : World) (f : PdfFile) (pdf : Document) (p : Page) (ps : list Page)
    (e : py_exn) (st : State) :
  pdf_open f = Ok pdf ->
  pages pdf = p :: ps ->
  default "" (metadata pdf !! "Title") = "" ->
  images p <> [] ->
  to_image p = Raise e ->
  processPdf W f st
  = (Raise e,
     {| dirs :=
          list_to_set
            (prefixes []
               (Path ("./output/"
                      ++ PyStr.re_sub_unsafe
                           (PyStr.replace_with_empty ".pdf" (name f)))))
          ∪ dirs st;
        files := files st;
        log := log st ++ [Printed_ocr_required; Called_to_image 200] |}).
Proof.
  intros Hopen Hpages Htitle Himages Himg.
  rewrite (processPdf_visual W f pdf p ps st Hopen Hpages Htitle Himages).
  apply bind_raise. unfold capture_title.
  rewrite bind_mkdir, bind_emit, bind_lift, Himg.
  unfold record. simpl. now rewrite <- app_assoc.
Qed.

Lemma processPdf_rasterization_failure_witness :
  processPdf (Sample.world [Sample.high_box]) Sample.broken Sample.start
  = (Raise (ExternalError "to_image"),
     {| dirs :=
          list_to_set
            (prefixes []
               (Path ("./output/"
                      ++ PyStr.re_sub_unsafe
                           (PyStr.replace_with_empty ".pdf" "broken.pdf"))))
          ∪ ∅;
        files := ∅;
        log := [] ++ [Printed_ocr_required; Called_to_image 200] |}).
Proof.
  apply (processPdf_rasterization_failure _ Sample.broken
           (mk_document [Sample.broken_page] ∅) Sample.broken_page []);
    (reflexivity || discriminate).
Defined.

(** ** Coordinates of the title box *)

Lemma unpack4_ok (l : list py_float) (r : Rect) :
  unpack4 l = Ok r ->
  exists a1 a2 a3 a4,
    l = [Finite a1; Finite a2; Finite a3; Finite a4]
    /\ r = (truncate a1, truncate a2, truncate a3, truncate a4).
Proof.
  unfold unpack4.
  destruct l as [|x1 [|x2 [|x3 [|x4 [|x5 l]]]]]; simpl;
    repeat match goal with
           | |- context [py_int ?x] => destruct x; simpl
           end;
    try discriminate.
  intros [= <-]. now eexists _, _, _, _.
Qed.

Lemma unpack4_raises (l : list py_float) (e : py_exn) :
  unpack4 l = Raise e -> e = ValueError \/ e = OverflowError.
Proof.
  unfold unpack4.
  destruct l as [|x1 [|x2 [|x3 [|x4 [|x5 l]]]]]; simpl;
    repeat match goal with
           | |- context [py_int ?x] => destruct x; simpl
           end;
    intros [= <-]; auto.
Qed.

(** X10.  The unpacking of the title box succeeds exactly when the box has
    four coordinates, all finite; the rectangle is then made of the
    coordinates truncated toward zero. *)
Theorem unpack4_four_finite (l : list py_float) (r : Rect) :
  unpack4 l = Ok r
  <-> exists a1 a2 a3 a4,
        l = [Finite a1; Finite a2; Finite a3; Finite a4]
        /\ r = (truncate a1, truncate a2, truncate a3, truncate a4).
Proof.
  split; [apply unpack4_ok|].
  intros (a1 & a2 & a3 & a4 & -> & ->). reflexivity.
Qed.

(** X11.  A title box that does not have four finite coordinates makes the
    crop step raise [ValueError] or [OverflowError] once the page image is
    opened: the image library is not asked to crop and no title image is
    saved. *)
Theorem crop_title_box_bad_coordinates
    (W : World) (safe : string) (tp fp : path) (b : Box) (st : State)
    (img : Image) :
  files st !! fp = Some img ->
  (forall a1 a2 a3 a4,
      coordinate b <> [Finite a1; Finite a2; Finite a3; Finite a4]) ->
  exists e,
    (e = ValueError \/ e = OverflowError)
    /\ crop_title_box W safe tp fp b st
       = (Raise e, record st (Called_image_open fp)).
Proof.
  intros Hfile Hbad. unfold crop_title_box.
  rewrite bind_emit, (bind_read _ _ _ img) by assumption.
  rewrite bind_lift.
  destruct (unpack4 (coordinate b)) as [r|e] eqn:E.
  - apply unpack4_ok in E as (a1 & a2 & a3 & a4 & E & _).
    now destruct (Hbad a1 a2 a3 a4).
  - exists e. split; [now apply unpack4_raises in E | reflexivity].
Qed.

Lemma crop_title_box_bad_coordinates_witness :
  exists e,
    (e = ValueError \/ e = OverflowError)
    /\ crop_title_box (Sample.world []) "scan" Sample.title_path
         Sample.first_page_path
         (mk_box "doc_title" [Finite 1; NaN; Finite 3; Finite 4] (Finite 0.9))
         Sample.captured
       = (Raise e, record Sample.captured
                     (Called_image_open Sample.first_page_path)).
Proof.
  apply (crop_title_box_bad_coordinates (Sample.world []) "scan"
           Sample.title_path Sample.first_page_path _ Sample.captured
           Sample.page_image).
  - reflexivity.
  - intros a1 a2 a3 a4. discriminate.
Defined.

(** X12.  The conversion of a coordinate drops its fractional part, toward
    zero: it does not round to the nearest integer. *)
Theorem truncate_toward_zero (q : Q) :
  (0 <= q -> inject_Z (truncate q) <= q /\ q < inject_Z (truncate q) + 1)%Q
  /\ (q <= 0 ->
      inject_Z (truncate q) - 1 < q /\ q <= inject_Z (truncate q))%Q.
Proof.
  destruct q as [n d]. unfold truncate, Qle, Qlt. simpl.
  pose proof (Z.quot_rem' n (Z.pos d)) as Hqr.
  split; intros Hn.
  - assert (0 <= n)%Z by lia.
    pose proof (Z.rem_bound_pos n (Z.pos d)). nia.
  - assert (n <= 0)%Z by lia.
    pose proof (Z.rem_nonpos n (Z.pos d) ltac:(lia) ltac:(lia)).
    pose proof (Z.rem_bound_abs n (Z.pos d) ltac:(lia)). nia.
Qed.

Lemma truncate_toward_zero_witness :
  (inject_Z (truncate 10.9) <= 10.9 /\ 10.9 < inject_Z (truncate 10.9) + 1)%Q.
Proof.
  apply (truncate_toward_zero 10.9). vm_compute. discriminate.
Defined.

(** ** What [processPdf] writes *)

Section Confined.
Variable W : World.
Context {X : Type} (obs : State -> X) (writable : path -> Prop).
Hypothesis obs_emit : forall e, stable obs (emit e).
Hypothesis obs_save :
  forall p img, writable p -> stable obs (save p img).
Hypothesis obs_mkdir : forall p, stable obs (mkdir_parents p).

Lemma crop_title_box_confined safe tp fp box :
  writable tp -> stable obs (crop_title_box W safe tp fp box).
Proof.
  intros Htp. unfold crop_title_box.
  apply stable_bind; [apply obs_emit | intros _].
  apply stable_bind; [apply stable_read | intros image].
  apply stable_bind; [apply stable_lift | intros [[[x1 y1] x2] y2]].
  apply stable_bind; [apply obs_emit | intros _].
  apply stable_bind; [apply stable_lift | intros cropped].
  apply stable_bind; [now apply obs_save | intros _].
  apply stable_bind; [apply obs_emit | intros _]. apply stable_ret.
Qed.

Lemma title_box_loop_confined safe tp fp bs :
  writable tp -> stable obs (title_box_loop W safe tp fp bs).
Proof.
  intros Htp. induction bs as [|b bs IH]; simpl.
  - apply stable_ret.
  - destruct (String.eqb _ _);
      [now apply crop_title_box_confined | exact IH].
Qed.

Lemma detect_title_and_crop_confined safe dir fp :
  writable (dir ++ ["title.jpg"]) ->
  stable obs (detect_title_and_crop W safe dir fp).
Proof.
  intros Htp. unfold detect_title_and_crop.
  apply stable_bind; [apply obs_emit | intros _].
  apply stable_bind; [apply stable_predict | intros output].
  destruct output as [|response more].
  - apply stable_bind; [apply obs_emit | intros _]. apply stable_ret.
  - apply stable_bind; [now apply title_box_loop_confined | intros title_box].
    destruct title_box as [[|x l]|]; try apply stable_ret;
      (apply stable_bind; [apply obs_emit | intros _]; apply stable_ret).
Qed.

Lemma title_recognition_confined tp : stable obs (title_recognition W tp).
Proof.
  unfold title_recognition.
  apply stable_bind; [apply obs_emit | intros _].
  apply stable_bind; [apply stable_predict | intros result].
  destruct result as [|res others]; [apply obs_emit|].
  apply stable_bind; [apply obs_emit | intros _].
  apply stable_bind; [apply obs_emit | intros _]. apply obs_emit.
Qed.

Lemma capture_title_confined page pdf_name :
  let dir := Path ("./output/"
                   ++ PyStr.re_sub_unsafe
                        (PyStr.replace_with_empty ".pdf" pdf_name)) in
  writable (dir ++ ["first_page.jpg"]) ->
  writable (dir ++ ["title.jpg"]) ->
  stable obs (capture_title W page pdf_name).
Proof.
  intros dir Hfp Htp. unfold capture_title. fold dir.
  apply stable_bind; [apply obs_mkdir | intros _].
  apply stable_bind; [apply obs_emit | intros _].
  apply stable_bind; [apply stable_lift | intros first_page_image].
  apply stable_bind; [now apply obs_save | intros _].
  apply stable_bind; [apply obs_emit | intros _].
  apply stable_bind;
    [now apply detect_title_and_crop_confined | intros title_image_path].
  destruct title_image_path as [p|];
    [apply title_recognition_confined | apply stable_ret].
Qed.

Lemma processPdf_confined f :
  let dir := Path ("./output/"
                   ++ PyStr.re_sub_unsafe
                        (PyStr.replace_with_empty ".pdf" (name f))) in
  writable (dir ++ ["first_page.jpg"]) ->
  writable (dir ++ ["title.jpg"]) ->
  stable obs (processPdf W f).
Proof.
  intros dir Hfp Htp. unfold processPdf.
  apply stable_bind; [apply stable_lift | intros pdf].
  destruct (length (pages pdf) =? 0)%nat; [apply stable_ret|].
  destruct (PyStr.truthy _); [apply stable_lift|].
  destruct (pages pdf) as [|first_page rest]; [apply stable_raise|].
  destruct (negb _ && negb _); [apply stable_ret|].
  apply stable_bind; [|intros; apply stable_ret].
  destruct (0 <? _)%nat; [|apply stable_ret].
  apply stable_bind; [apply obs_emit|].
  intros; now apply capture_title_confined.
Qed.
End Confined.

(** X13.  [processPdf] writes nothing but [first_page.jpg] and [title.jpg]
    in the output directory of the document: a path that designates
    neither of these two files holds after the call what it held before,
    also when the call raises.  Paths are compared by the location they
    designate: for the file [...pdf] the output directory is [output/..],
    and the two files are those of the working directory. *)
Theorem processPdf_writes_confined
    (W : World) (f : PdfFile) (st : State) (p : path) :
  let dir := Path ("./output/"
                   ++ PyStr.re_sub_unsafe
                        (PyStr.replace_with_empty ".pdf" (name f))) in
  resolve p <> resolve (dir ++ ["first_page.jpg"]) ->
  resolve p <> resolve (dir ++ ["title.jpg"]) ->
  files (processPdf W f st).2 !! p = files st !! p.
Proof.
  intros dir Hfp Htp.
  set (k1 := resolve (dir ++ ["first_page.jpg"])) in *.
  set (k2 := resolve (dir ++ ["title.jpg"])) in *.
  set (obs := fun s : State => delete k1 (delete k2 (stored (files s)))).
  assert (H : stable obs (processPdf W f)).
  { apply (processPdf_confined W obs
             (fun q => resolve q = k1 \/ resolve q = k2));
      [| | |now left|now right].
    - intros e s. reflexivity.
    - intros q img Hq s. unfold obs.
      change (stored (files (save q img s).2))
        with (<[resolve q := img]> (stored (files s))).
      apply map_eq. intros k.
      destruct (decide (k = k1)) as [-> | Hk1];
        [now rewrite !lookup_delete_eq|].
      rewrite !(lookup_delete_ne _ k1) by congruence.
      destruct (decide (k = k2)) as [-> | Hk2];
        [now rewrite !lookup_delete_eq|].
      rewrite !(lookup_delete_ne _ k2) by congruence.
      apply lookup_insert_ne. destruct Hq; congruence.
    - intros q s. reflexivity. }
  specialize (H st). unfold obs in H.
  apply (f_equal (fun m : gmap path Image => m !! resolve p)) in H.
  rewrite !lookup_delete_ne in H by congruence. exact H.
Qed.

(** The file [...pdf] processed after [scan.pdf] was captured: the picture
    under [output/scan] stays as it was, and the two pictures of the run
    are those of the working directory. *)
Lemma processPdf_writes_confined_witness :
  let st' := (processPdf (Sample.world [Sample.high_box]) Sample.dots
                Sample.captured).2 in
  files st' !! Sample.first_page_path
  = files Sample.captured !! Sample.first_page_path
  /\ files st' !! ["first_page.jpg"] = Some Sample.page_image
  /\ files st' !! ["title.jpg"] = Some Sample.title_image
  /\ files st' !! ["output"; "first_page.jpg"] = None.
Proof.
  split.
  - apply (processPdf_writes_confined (Sample.world [Sample.high_box])
             Sample.dots Sample.captured);
      vm_compute; discriminate.
  - repeat split; vm_compute; reflexivity.
Defined.

(** X14.  The only directories [processPdf] can create are [output] and
    the output directory of the document; it removes none. *)
Theorem processPdf_directories (W : World) (f : PdfFile) (st : State) :
  let safe_name :=
    PyStr.re_sub_unsafe (PyStr.replace_with_empty ".pdf" (name f)) in
  dirs (processPdf W f st).2 = dirs st
  \/ dirs (processPdf W f st).2
     = {[ ["output"] ]} ∪ dirs st
  \/ dirs (processPdf W f st).2
     = {[ ["output"]; ["output"; safe_name] ]} ∪ dirs st.
Proof.
  intros safe_name. unfold processPdf. rewrite bind_lift.
  destruct (pdf_open f) as [pdf|e]; [|now left].
  destruct (length (pages pdf) =? 0); [now left|].
  destruct (PyStr.truthy _); [now left|].
  destruct (pages pdf) as [|first_page rest]; [now left|].
  destruct (negb _ && negb _); [now left|].
  destruct (0 <? _).
  2:{ left. reflexivity. }
  right.
  assert (E : forall s,
             dirs (((emit Printed_ocr_required ≫= fun _ =>
                     capture_title W first_page (name f)) ≫= fun _ =>
                    mret "System unable to read the first page") s).2
             = dirs (capture_title W first_page (name f)
                       (record s Printed_ocr_required)).2).
  { intros s. unfold mbind at 1, M_bind at 1. rewrite bind_emit.
    now destruct (capture_title W first_page (name f) _) as [[u|e] s1]. }
  rewrite E, capture_title_dirs. fold safe_name.
  rewrite (created_by_mkdir safe_name (re_sub_unsafe_safe _)).
  destruct (names_subdirectory safe_name); [right | left]; simpl;
    now rewrite !(right_id_L ∅ (∪)).
Qed.

(** ** Names: input folder and output directory *)

Module Names.
Import PyStr PyStrFacts.

Lemma starts_with_app (pre l : list ascii) :
  starts_with pre l = true -> exists r, l = pre ++ r.
Proof.
  revert l. induction pre as [|a pre IH]; intros l H.
  - now exists l.
  - destruct l as [|b l]; [discriminate|]. simpl in H.
    apply andb_prop in H as [Hab H]. apply N.eqb_eq, code_inj in Hab.
    destruct (IH _ H) as [r ->]. exists r. now rewrite Hab.
Qed.

Lemma starts_with_prefix (pre r : list ascii) :
  starts_with pre (pre ++ r) = true.
Proof.
  induction pre as [|a pre IH]; [reflexivity|]. simpl.
  now rewrite N.eqb_refl, IH.
Qed.

Lemma matches_pdf_suffix (s : string) :
  matches_pdf s = true -> exists stem, s = (stem ++ ".pdf")%string.
Proof.
  unfold matches_pdf. intros H. apply starts_with_app in H as [r Hr].
  exists (of_chars (rev r)).
  rewrite <- (of_chars_chars s), <- (rev_involutive (chars s)), Hr.
  rewrite rev_app_distr, rev_involutive, of_chars_app. reflexivity.
Qed.

Lemma suffix_matches_pdf (stem : string) :
  matches_pdf (stem ++ ".pdf") = true.
Proof.
  unfold matches_pdf. rewrite chars_app, rev_app_distr.
  apply starts_with_prefix.
Qed.

Lemma map_safe_fixed (l : list ascii) :
  Forall (fun c => safe_char c = true) l ->
  map (fun c => if safe_char c then c else underscore) l = l.
Proof.
  induction 1 as [|c l Hc _ IH]; simpl; [reflexivity|].
  now rewrite Hc, IH.
Qed.

(** An occurrence of [.pdf] at the head of [l ++ ".pdf"] lies in [l]
    unless [l] is empty. *)
Lemma occurrence_in_stem (c : ascii) (l : list ascii) :
  starts_with (chars ".pdf") (c :: l ++ chars ".pdf") = true ->
  exists v, c :: l = chars ".pdf" ++ v.
Proof.
  intros H. pose proof (starts_with_app _ _ H) as [r Hr].
  destruct l as [|x1 [|x2 [|x3 l]]]; simpl in Hr; try discriminate.
  injection Hr as -> -> -> -> _. now exists l.
Qed.

Lemma remove_all_stem (l : list ascii) :
  (forall u v, l <> u ++ chars ".pdf" ++ v) ->
  remove_all (chars ".pdf") 0 (l ++ chars ".pdf") = l.
Proof.
  induction l as [|c l IH]; intros Hno; [reflexivity|].
  change (remove_all (chars ".pdf") 0 ((c :: l) ++ chars ".pdf"))
    with (if starts_with (chars ".pdf") (c :: l ++ chars ".pdf")
          then remove_all (chars ".pdf") (length (chars ".pdf") - 1)
                 (l ++ chars ".pdf")
          else c :: remove_all (chars ".pdf") 0 (l ++ chars ".pdf")).
  destruct (starts_with _ _) eqn:E.
  - apply occurrence_in_stem in E as [v Hv].
    now destruct (Hno [] v).
  - rewrite IH; [reflexivity|].
    intros u v ->. now apply (Hno (c :: u) v).
Qed.
End Names.

(** X15.  Cleaning a name for the output directory keeps its length, and a
    cleaned name is left as it is when cleaned again. *)
Theorem re_sub_unsafe_idempotent (s : string) :
  String.length (PyStr.re_sub_unsafe s) = String.length s
  /\ PyStr.re_sub_unsafe (PyStr.re_sub_unsafe s) = PyStr.re_sub_unsafe s.
Proof.
  split.
  - rewrite <- !PyStrFacts.length_chars. unfold PyStr.re_sub_unsafe.
    rewrite PyStrFacts.chars_of_chars. apply length_map.
  - unfold PyStr.re_sub_unsafe at 1.
    rewrite (Names.map_safe_fixed _ (re_sub_unsafe_safe s)).
    apply PyStrFacts.of_chars_chars.
Qed.

(** X16.  For a file named [stem.pdf] whose stem does not itself contain
    [.pdf], the name of the output directory is the cleaned stem. *)
Theorem safe_name_of_plain_pdf (stem : string) :
  (forall u v, stem <> (u ++ ".pdf" ++ v)%string) ->
  PyStr.re_sub_unsafe (PyStr.replace_with_empty ".pdf" (stem ++ ".pdf"))
  = PyStr.re_sub_unsafe stem.
Proof.
  intros Hno. unfold PyStr.replace_with_empty.
  rewrite PyStrFacts.chars_app, Names.remove_all_stem.
  - now rewrite PyStrFacts.of_chars_chars.
  - intros u v E. apply (Hno (PyStr.of_chars u) (PyStr.of_chars v)).
    rewrite <- (PyStrFacts.of_chars_chars stem), E.
    rewrite !of_chars_app. reflexivity.
Qed.

(** The file [notes v1.2 (draft).pdf]: the stem holds dots, blanks and
    brackets but no [.pdf], and the directory is [notes_v1.2__draft_]. *)
Lemma safe_name_of_plain_pdf_witness :
  PyStr.re_sub_unsafe
    (PyStr.replace_with_empty ".pdf" ("notes v1.2 (draft)" ++ ".pdf"))
  = "notes_v1.2__draft_".
Proof.
  rewrite (safe_name_of_plain_pdf "notes v1.2 (draft)"); [reflexivity|].
  intros u v E.
  repeat (destruct u as [|? u]; [discriminate | injection E as _ E]).
  destruct u; discriminate.
Defined.

(** X17.  [loop_dir] returns, in the order of the folder, the entries that
    are files and whose name ends with [.pdf], and nothing else; it prints
    its notice exactly when it returns the empty list. *)
Theorem loop_dir_returns_pdf_files (folder : list DirEntry) :
  (forall f,
      In f (loop_dir folder).2
      <-> exists e, In e folder /\ entry_file e = f
                    /\ entry_is_file e = true
                    /\ exists stem, name f = (stem ++ ".pdf")%string)
  /\ (loop_dir folder).2 `sublist_of` map entry_file folder
  /\ ((loop_dir folder).1 = [No_pdf_found] <-> (loop_dir folder).2 = []).
Proof.
  assert (E : (loop_dir folder).2
              = map entry_file
                  (List.filter
                     (fun f => matches_pdf (name (entry_file f))
                               && entry_is_file f) folder)).
  { unfold loop_dir. now destruct (map _ _). }
  split; [|split].
  - intros f. rewrite E, in_map_iff. split.
    + intros (e & <- & He). apply filter_In in He as [He Hb].
      apply andb_prop in Hb as [Hm Hf].
      exists e. repeat split; auto. now apply Names.matches_pdf_suffix.
    + intros (e & He & <- & Hf & stem & Hm). exists e.
      split; [reflexivity|]. apply filter_In. split; [assumption|].
      now rewrite Hm, Names.suffix_matches_pdf, Hf.
  - rewrite E. clear. induction folder as [|e folder IH]; simpl.
    + constructor.
    + destruct (_ && _); simpl; [now constructor | now constructor].
  - unfold loop_dir. destruct (map _ _); simpl; split; congruence.
Qed.

(** In the sample folder the file [titled.pdf] is returned; the text file
    and the directory named [broken.pdf] are not. *)
Lemma loop_dir_returns_pdf_files_witness :
  In Sample.titled (loop_dir Sample.folder).2
  /\ ~ In Sample.notes (loop_dir Sample.folder).2
  /\ ~ In Sample.broken (loop_dir Sample.folder).2.
Proof.
  destruct (loop_dir_returns_pdf_files Sample.folder) as (H & _ & _).
  split; [|split].
  - apply H. exists (mk_entry Sample.titled true).
    split; [simpl; tauto|]. split; [reflexivity|]. split; [reflexivity|].
    now exists "titled".
  - intros Hin. apply H in Hin as (_ & _ & _ & _ & stem & E).
    simpl in E.
    repeat (destruct stem as [|? stem]; [discriminate | injection E as _ E]).
    destruct stem; discriminate.
  - intros Hin. apply H in Hin as (e & He & Hf & Hfile & _).
    simpl in He.
    destruct He as [<-|[<-|[<-|[<-|[]]]]]; discriminate.
Defined.

Example loop_dir_sample :
  loop_dir Sample.folder = ([], [Sample.scanned; Sample.titled])
  /\ loop_dir [mk_entry Sample.notes true] = ([No_pdf_found], []).
Proof. split; reflexivity. Qed.

(** ** Recognition runs on a saved title image only *)

Section OcrCalls.
Variable W : World.

Lemma ocr_calls_app (l1 l2 : list Event) :
  ocr_calls (l1 ++ l2) = ocr_calls l1 ++ ocr_calls l2.
Proof.
  induction l1 as [|e l1 IH]; simpl; [reflexivity|].
  destruct e; simpl; now rewrite ?IH.
Qed.

Lemma quiet_step_record (st0 st st' : State) (e : Event)
    (saved : option Event) :
  ocr_calls [e] = [] ->
  log st = log st0 ++ [e] ->
  quiet_step st st' saved -> quiet_step st0 st' saved.
Proof.
  intros He Hst (evs & Hlog & Hcalls & Hlast). exists (e :: evs).
  split; [|split].
  - rewrite Hlog, Hst. now rewrite <- app_assoc.
  - change (e :: evs) with ([e] ++ evs). now rewrite ocr_calls_app, He.
  - intros e' He'. destruct (Hlast e' He') as [evs0 ->].
    now exists (e :: evs0).
Qed.

Lemma quiet_step_refl (st : State) : quiet_step st st None.
Proof.
  exists []. split; [now rewrite app_nil_r|]. split; [reflexivity|].
  discriminate.
Qed.

Lemma quiet_step_forget (st st' : State) (saved : option Event) :
  quiet_step st st' saved -> quiet_step st st' None.
Proof.
  intros (evs & Hlog & Hcalls & _). exists evs. repeat split; auto.
  discriminate.
Qed.

Lemma quiet_step_emit (st st' : State) (e : Event) :
  ocr_calls [e] = [] ->
  quiet_step st st' None -> quiet_step st (record st' e) None.
Proof.
  intros He (evs & Hlog & Hcalls & _). exists (evs ++ [e]).
  split; [|split].
  - simpl. rewrite Hlog. now rewrite <- app_assoc.
  - now rewrite ocr_calls_app, Hcalls, He.
  - discriminate.
Qed.

Lemma crop_title_box_step safe tp fp b st r st' :
  crop_title_box W safe tp fp b st = (r, st') ->
  quiet_step st st'
    (match r with
     | Ok _ => Some (Printed_title_saved safe tp)
     | Raise _ => None
     end)
  /\ (forall c, r = Ok c -> is_Some (files st' !! tp)).
Proof.
  unfold crop_title_box. rewrite bind_emit.
  unfold mbind at 1, M_bind at 1, read at 1. simpl files.
  destruct (files st !! fp) as [img|].
  2:{ intros [= <- <-]. split; [|discriminate].
      apply (quiet_step_emit st st); [reflexivity | apply quiet_step_refl]. }
  rewrite bind_lift.
  destruct (unpack4 _) as [[[[x1 y1] x2] y2]|e].
  2:{ intros [= <- <-]. split; [|discriminate].
      apply (quiet_step_emit st st); [reflexivity | apply quiet_step_refl]. }
  rewrite bind_emit, bind_lift.
  destruct (image_crop _ _ _) as [cropped|e].
  - rewrite bind_save, bind_emit. intros [= <- <-]. split.
    + exists [Called_image_open fp; Called_crop (x1, y1, x2, y2);
              Printed_title_saved safe tp].
      split; [simpl; now rewrite <- !app_assoc|]. split; [reflexivity|].
      intros e [= <-].
      now exists [Called_image_open fp; Called_crop (x1, y1, x2, y2)].
    + intros _ _. simpl. rewrite fs_lookup_insert. eauto.
  - intros [= <- <-]. split; [|discriminate].
    exists [Called_image_open fp; Called_crop (x1, y1, x2, y2)].
    split; [simpl; now rewrite <- !app_assoc|]. split; [reflexivity|].
    discriminate.
Qed.

Lemma title_box_loop_step safe tp fp bs st r st' :
  title_box_loop W safe tp fp bs st = (r, st') ->
  quiet_step st st'
    (match r with
     | Ok (Some _) => Some (Printed_title_saved safe tp)
     | _ => None
     end)
  /\ (forall c, r = Ok (Some c) -> is_Some (files st' !! tp)).
Proof.
  induction bs as [|b bs IH]; simpl.
  - intros [= <- <-]. split; [apply quiet_step_refl | discriminate].
  - destruct (String.eqb _ _); [|exact IH]. intros H.
    assert (Hr : (exists c, r = Ok (Some c)) \/ exists e, r = Raise e).
    { revert H. unfold crop_title_box. rewrite bind_emit.
      unfold mbind at 1, M_bind at 1.
      destruct (read fp _) as [[img|e] st1]; [|intros [= <- _]; eauto].
      rewrite bind_lift.
      destruct (unpack4 _) as [[[[x1 y1] x2] y2]|e];
        [|intros [= <- _]; eauto].
      rewrite bind_emit, bind_lift.
      destruct (image_crop _ _ _) as [cropped|e];
        [|intros [= <- _]; eauto].
      rewrite bind_save, bind_emit. intros [= <- _]. eauto. }
    apply crop_title_box_step in H as [H1 H2].
    destruct Hr as [[c ->] | [e ->]].
    + split; [exact H1|]. intros c' _. now apply (H2 (Some c)).
    + split; [exact H1 | discriminate].
Qed.

Lemma detect_title_and_crop_step safe dir fp st r st' :
  detect_title_and_crop W safe dir fp st = (r, st') ->
  quiet_step st st'
    (match r with
     | Ok (Some p) => Some (Printed_title_saved safe p)
     | _ => None
     end)
  /\ (forall p, r = Ok (Some p) ->
        p = dir ++ ["title.jpg"] /\ is_Some (files st' !! p)).
Proof.
  unfold detect_title_and_crop. rewrite bind_emit, bind_predict_any.
  assert (Hfirst : forall s saved,
             quiet_step (record st (Called_layout_predict fp)) s saved ->
             quiet_step st s saved).
  { intros s saved.
    now apply (quiet_step_record st _ s (Called_layout_predict fp)). }
  destruct (match files _ !! fp with
            | Some img => layout_predict W img
            | None => layout_no_file W
            end) as [[|response more]|e].
  - rewrite bind_emit. intros [= <- <-]. split; [|discriminate].
    apply Hfirst, quiet_step_emit; [reflexivity | apply quiet_step_refl].
  - unfold mbind at 1, M_bind at 1.
    destruct (title_box_loop _ _ _ _ _ _) as [[tb|e] st1] eqn:L;
      apply title_box_loop_step in L as [L1 L2].
    + destruct tb as [[|x l]|].
      * rewrite bind_emit. intros [= <- <-]. split; [|discriminate].
        apply Hfirst, quiet_step_emit; [reflexivity|].
        now apply quiet_step_forget in L1.
      * intros [= <- <-]. split; [now apply Hfirst|].
        intros p [= <-]. split; [reflexivity|]. now apply (L2 (x :: l)).
      * rewrite bind_emit. intros [= <- <-]. split; [|discriminate].
        apply Hfirst, quiet_step_emit; [reflexivity | exact L1].
    + intros [= <- <-]. split; [now apply Hfirst | discriminate].
  - intros [= <- <-]. split; [|discriminate].
    apply Hfirst, quiet_step_refl.
Qed.

Lemma title_recognition_step tp st r st' :
  title_recognition W tp st = (r, st') ->
  exists evs,
    log st' = log st ++ Called_ocr_predict tp :: evs
    /\ ocr_calls evs = []
    /\ files st' = files st.
Proof.
  unfold title_recognition. rewrite bind_emit, bind_predict_any.
  destruct (match files _ !! tp with
            | Some img => ocr_predict W img
            | None => ocr_no_file W
            end) as [[|res others]|e].
  - intros [= <- <-]. exists [Printed_no_ocr_result]. simpl.
    rewrite <- app_assoc. auto.
  - rewrite !bind_emit. intros [= <- <-].
    exists [Printed_rec_texts (rec_texts res);
            Printed_rec_scores (rec_scores res);
            Printed_full_title (PyStr.join "_" (rec_texts res))].
    simpl. rewrite <- !app_assoc. auto.
  - intros [= <- <-]. exists []. simpl. auto.
Qed.

(** A title image comes out of the detection only for an answer of the
    layout model whose first box labelled [doc_title] has four finite
    coordinates that the image library crops. *)
Lemma crop_title_box_ok_inv safe tp fp b st img c st' :
  files st !! fp = Some img ->
  crop_title_box W safe tp fp b st = (Ok c, st') ->
  exists rect cropped,
    unpack4 (coordinate b) = Ok rect /\ image_crop W img rect = Ok cropped.
Proof.
  intros Hfile. unfold crop_title_box.
  rewrite bind_emit, (bind_read _ _ _ img) by assumption.
  rewrite bind_lift.
  destruct (unpack4 _) as [[[[x1 y1] x2] y2]|e]; [|discriminate].
  rewrite bind_emit, bind_lift.
  destruct (image_crop _ _ _) as [cropped|e] eqn:Hc; [|discriminate].
  intros _. eauto.
Qed.

Lemma title_box_loop_some_inv safe tp fp bs st c st' :
  title_box_loop W safe tp fp bs st = (Ok (Some c), st') ->
  exists pre b post,
    bs = pre ++ b :: post
    /\ Forall (fun x => label x <> "doc_title") pre
    /\ label b = "doc_title"
    /\ crop_title_box W safe tp fp b st = (Ok (Some c), st').
Proof.
  induction bs as [|b bs IH]; simpl; [discriminate|].
  destruct (String.eqb (label b) "doc_title") eqn:E.
  - intros H. exists [], b, bs. apply String.eqb_eq in E. auto.
  - intros H. destruct (IH H) as (pre & b' & post & -> & Hpre & Hb & Hrun).
    exists (b :: pre), b', post. apply String.eqb_neq in E. auto.
Qed.

Lemma detect_some_inv safe dir fp st img p st' :
  files st !! fp = Some img ->
  detect_title_and_crop W safe dir fp st = (Ok (Some p), st') ->
  exists resp more pre b post rect cropped,
    layout_predict W img = Ok (resp :: more)
    /\ boxes resp = pre ++ b :: post
    /\ Forall (fun x => label x <> "doc_title") pre
    /\ label b = "doc_title"
    /\ unpack4 (coordinate b) = Ok rect
    /\ image_crop W img rect = Ok cropped.
Proof.
  intros Hfile. unfold detect_title_and_crop.
  rewrite bind_emit, (bind_predict _ _ _ _ _ img) by assumption.
  destruct (layout_predict W img) as [[|resp more]|e]; [| |discriminate].
  - rewrite bind_emit. discriminate.
  - unfold mbind at 1, M_bind at 1.
    destruct (title_box_loop _ _ _ _ _ _) as [[tb|e] st1] eqn:L;
      [|discriminate].
    destruct tb as [[|x l]|]; [rewrite bind_emit; discriminate | |
                               rewrite bind_emit; discriminate].
    intros _.
    apply title_box_loop_some_inv in L
      as (pre & b & post & Hb & Hpre & Hlab & Hrun).
    apply (crop_title_box_ok_inv _ _ _ _ _ img) in Hrun
      as (rect & cropped & Hrect & Hcrop); [|assumption].
    exists resp, more, pre, b, post, rect, cropped. auto 10.
Qed.
End OcrCalls.

(** X18.  In [capture_title] the OCR model is called at most once, on the
    title image of the document, and the call comes right after the line
    that reports this image cropped and saved.  It is called exactly when
    the page is rasterised, the layout model answers, the first box
    labelled [doc_title] of its first result has four finite coordinates
    and the image library crops them; in every other case (no
    rasterisation, no answer, no such box, a failed crop) the OCR model is
    not called. *)
Theorem capture_title_ocr_after_crop
    (W : World) (page : Page) (pdf_current_name : string) (st : State) :
  let safe_name :=
    PyStr.re_sub_unsafe (PyStr.replace_with_empty ".pdf" pdf_current_name) in
  let title_image_path := Path ("./output/" ++ safe_name) ++ ["title.jpg"] in
  let st' := (capture_title W page pdf_current_name st).2 in
  exists evs,
    log st' = log st ++ evs
    /\ (ocr_calls evs = []
        \/ exists before after,
             evs = before
                   ++ Printed_title_saved safe_name title_image_path
                   :: Called_ocr_predict title_image_path :: after
             /\ ocr_calls before = [] /\ ocr_calls after = []
             /\ is_Some (files st' !! title_image_path))
    /\ (ocr_calls evs <> [] <->
        exists img resp more pre b post rect cropped,
          to_image page = Ok img
          /\ layout_predict W img = Ok (resp :: more)
          /\ boxes resp = pre ++ b :: post
          /\ Forall (fun x => label x <> "doc_title") pre
          /\ label b = "doc_title"
          /\ unpack4 (coordinate b) = Ok rect
          /\ image_crop W img rect = Ok cropped).
Proof.
  intros safe_name title_image_path st'. subst st' title_image_path.
  destruct (capture_title W page pdf_current_name st) as [r0 st'] eqn:E.
  cbn [snd]. revert E. unfold capture_title. fold safe_name.
  set (dir := Path ("./output/" ++ safe_name)) in *.
  rewrite bind_mkdir, bind_emit, bind_lift.
  destruct (to_image page) as [img|e].
  2:{ intros [= _ <-]. exists [Called_to_image 200].
      split; [reflexivity|].
      split; [now left|]. split; [intros H; now destruct H|].
      intros (img & resp & more & pre & b & post & rect & cropped & H & _).
      discriminate. }
  rewrite bind_save, bind_emit.
  match goal with
  | |- context [(detect_title_and_crop W _ _ _ ≫= _) ?s] => set (st1 := s)
  end.
  assert (Hfile : files st1 !! (dir ++ ["first_page.jpg"]) = Some img)
    by apply fs_lookup_insert.
  assert (Hlog1 : log st1
                  = log st ++ [Called_to_image 200;
                               Printed_captured pdf_current_name
                                 (dir ++ ["first_page.jpg"])])
    by (simpl; now rewrite <- app_assoc).
  unfold mbind at 1, M_bind at 1.
  destruct (detect_title_and_crop W safe_name dir
              (dir ++ ["first_page.jpg"]) st1) as [r st2] eqn:D.
  pose proof (detect_title_and_crop_step W _ _ _ _ _ _ D)
    as [(evs & Hlog2 & Hcalls & Hlast) Hsome].
  assert (Hnone : ocr_calls ([Called_to_image 200;
                              Printed_captured pdf_current_name
                                (dir ++ ["first_page.jpg"])] ++ evs) = [])
    by (rewrite ocr_calls_app; exact Hcalls).
  assert (Hfound : (exists img0 resp more pre b post rect cropped,
                      Ok img = Ok img0
                      /\ layout_predict W img0 = Ok (resp :: more)
                      /\ boxes resp = pre ++ b :: post
                      /\ Forall (fun x => label x <> "doc_title") pre
                      /\ label b = "doc_title"
                      /\ unpack4 (coordinate b) = Ok rect
                      /\ image_crop W img0 rect = Ok cropped)
                   -> r = Ok (Some (dir ++ ["title.jpg"]))).
  { intros (img0 & resp & more & pre & b & post & rect & cropped & [= <-]
            & Hl & Hb & Hpre & Hlab & Hrect & Hcrop).
    destruct (detect_found W safe_name dir _ st1 img cropped resp more pre b
                post rect Hfile Hl Hb Hpre Hlab Hrect Hcrop)
      as (s & Hd & _).
    rewrite D in Hd. now injection Hd as -> _. }
  destruct r as [[p|]|e].
  - destruct (Hsome p eq_refl) as [-> Hstored].
    destruct (Hlast _ eq_refl) as [evs0 ->].
    intros T.
    apply title_recognition_step in T as (evs3 & Hlog3 & Hcalls3 & Hfiles).
    rewrite ocr_calls_app in Hcalls. apply app_eq_nil in Hcalls as [Hc0 _].
    exists ([Called_to_image 200;
             Printed_captured pdf_current_name (dir ++ ["first_page.jpg"])]
            ++ evs0
            ++ Printed_title_saved safe_name (dir ++ ["title.jpg"])
            :: Called_ocr_predict (dir ++ ["title.jpg"]) :: evs3).
    assert (Hone : ocr_calls
                     ([Called_to_image 200;
                       Printed_captured pdf_current_name
                         (dir ++ ["first_page.jpg"])]
                      ++ evs0
                      ++ Printed_title_saved safe_name (dir ++ ["title.jpg"])
                      :: Called_ocr_predict (dir ++ ["title.jpg"]) :: evs3)
                   = [dir ++ ["title.jpg"]]).
    { rewrite !ocr_calls_app. simpl. now rewrite Hc0, Hcalls3. }
    split; [|split].
    + rewrite Hlog3, Hlog2, Hlog1. rewrite <- !app_assoc. reflexivity.
    + right.
      exists ([Called_to_image 200;
               Printed_captured pdf_current_name
                 (dir ++ ["first_page.jpg"])] ++ evs0), evs3.
      split; [now rewrite <- app_assoc|].
      split; [now rewrite ocr_calls_app, Hc0|].
      split; [assumption|]. now rewrite Hfiles.
    + rewrite Hone. split; [intros _ | discriminate].
      destruct (detect_some_inv W _ _ _ _ img _ _ Hfile D)
        as (resp & more & pre & b & post & rect & cropped & H).
      exists img, resp, more, pre, b, post, rect, cropped. auto.
  - intros [= _ <-].
    exists ([Called_to_image 200;
             Printed_captured pdf_current_name (dir ++ ["first_page.jpg"])]
            ++ evs).
    split; [rewrite Hlog2, Hlog1; now rewrite <- app_assoc|].
    split; [now left|]. rewrite Hnone.
    split; [intros H; now destruct H|].
    intros H. now apply Hfound in H.
  - intros [= _ <-].
    exists ([Called_to_image 200;
             Printed_captured pdf_current_name (dir ++ ["first_page.jpg"])]
            ++ evs).
    split; [rewrite Hlog2, Hlog1; now rewrite <- app_assoc|].
    split; [now left|]. rewrite Hnone.
    split; [intros H; now destruct H|].
    intros H. now apply Hfound in H.
Qed.

(** The scanned sample: the title box is found and cropped, and the OCR
    model is called. *)
Lemma capture_title_ocr_after_crop_witness :
  exists evs,
    log (capture_title (Sample.world [Sample.text_box; Sample.high_box])
           Sample.scanned_page "scan.pdf" Sample.start).2
    = log Sample.start ++ evs
    /\ ocr_calls evs <> [].
Proof.
  destruct (capture_title_ocr_after_crop
              (Sample.world [Sample.text_box; Sample.high_box])
              Sample.scanned_page "scan.pdf" Sample.start)
    as (evs & Hlog & _ & Hiff).
  exists evs. split; [exact Hlog|]. apply Hiff.
  exists Sample.page_image,
    (mk_layout [Sample.text_box; Sample.high_box]), [],
    [Sample.text_box], Sample.high_box, [], (10, 10, 20, 18)%Z,
    Sample.title_image.
  repeat split; try reflexivity. repeat constructor. discriminate.
Defined.

Example capture_title_events :
  log (capture_title (Sample.world [Sample.text_box; Sample.high_box])
         Sample.scanned_page "scan.pdf" Sample.start).2
  = [Called_to_image 200;
     Printed_captured "scan.pdf" Sample.first_page_path;
     Called_layout_predict Sample.first_page_path;
     Called_image_open Sample.first_page_path;
     Called_crop (10, 10, 20, 18)%Z;
     Printed_title_saved "scan" Sample.title_path;
     Called_ocr_predict Sample.title_path;
     Printed_rec_texts ["Deep"; "Learning"];
     Printed_rec_scores [Finite 0.9; Finite 0.8];
     Printed_full_title "Deep_Learning"]
  /\ ocr_calls
       (log (capture_title (Sample.world [Sample.text_box])
               Sample.scanned_page "scan.pdf" Sample.start).2) = [].
Proof. split; reflexivity. Qed.
